(** * datalab.stackdriver.monitoring._query: the [Query] wrapper

    A shallow embedding of [src/datalab/stackdriver/monitoring/_query.py]:
    the label table built by [Query.labels_as_dataframe], the per-metric-type
    iteration of [Query.iter] and [Query.__iter__], the result cache of
    [Query.execute] and [Query.results], and the constructor.

    The module is glue over two libraries.  What it asks of pandas is
    embedded as small executable functions on a row-major frame
    ([json_normalize], [from_tuples], [getitem_level0], [getitem_list],
    [sort_values], [reset_index], [fillna]); what it asks of gcloud
    ([_sorted_resource_labels], [Query.copy], the paged [Query.iter], the
    constructor of its [Query]) and of the sibling modules [_query_result]
    and [_utils] is taken as a section variable. *)

From stdpp Require Import gmap strings list sorting.
From Stdlib Require Import Ascii.

Set Warnings "-clear-no-such-hyp".

(** ** Exceptions and results *)

Inductive exn : Type :=
  | KeyError
  | ValueError
  | AttributeError.

Inductive result (A : Type) : Type :=
  | Ok (a : A)
  | Raise (e : exn).
Arguments Ok {A} a.
Arguments Raise {A} e.

#[global] Instance exn_eq_dec : EqDecision exn.
Proof. solve_decision. Defined.
#[global] Instance result_eq_dec `{EqDecision A} : EqDecision (result A).
Proof. solve_decision. Defined.

#[global] Instance result_ret : MRet result := λ _ a, Ok a.
#[global] Instance result_bind : MBind result := λ _ _ f m,
  match m with Ok a => f a | Raise e => Raise e end.

Definition is_Ok {A} (r : result A) : Prop := ∃ a, r = Ok a.

(** ** Orders: strings, cells, tuples and rows

    Python compares [str] values lexicographically, character by character;
    that is [String.le] of stdpp.  Tuples and rows compare lexicographically
    over their components. *)

Section lex.
Context {A : Type} (R : relation A) `{!RelDecision R, !EqDecision A}.

Fixpoint lex_le (l1 l2 : list A) : Prop :=
  match l1, l2 with
  | [], _ => True
  | _ :: _, [] => False
  | x :: l1, y :: l2 => if decide (x = y) then lex_le l1 l2 else R x y
  end.

#[global] Instance lex_le_dec : RelDecision lex_le.
Proof.
  intros l1. induction l1 as [|x l1 IH]; intros [|y l2]; simpl;
    try case_decide; apply _.
Defined.
End lex.

(** Python's [sorted] and the row sort of pandas are stable; an insertion
    sort that puts an element before the first one it is below keeps equal
    elements in their input order. *)
Section sorted.
Context {A : Type} (R : relation A) `{!RelDecision R}.

Fixpoint insert_sorted (x : A) (l : list A) : list A :=
  match l with
  | [] => [x]
  | y :: l' => if decide (R x y) then x :: l else y :: insert_sorted x l'
  end.

Definition sorted (l : list A) : list A := foldr insert_sorted [] l.
End sorted.

(** A cell of an object column holds a string or NaN ([None]). *)
Abbreviation cell := (option string).

(** The order of [sort_values] on a column: by value, NaN after every
    value ([na_position='last'], the default). *)
Definition cell_le (c1 c2 : cell) : Prop :=
  match c1, c2 with
  | _, None => True
  | None, Some _ => False
  | Some a, Some b => String.le a b
  end.

#[global] Instance cell_le_dec : RelDecision cell_le.
Proof. intros [a|] [b|]; simpl; apply _. Defined.

(** Two-level column labels are Python tuples of two strings. *)
Abbreviation label := (string * string)%type.

Definition tuple_le (p q : label) : Prop := lex_le String.le [p.1; p.2] [q.1; q.2].

#[global] Instance tuple_le_dec : RelDecision tuple_le.
Proof. intros p q. unfold tuple_le. apply _. Defined.

(** ** Strings: [str.rsplit('.', 1)] *)

Fixpoint has_dot (s : string) : bool :=
  match s with
  | EmptyString => false
  | String c s' => if decide (c = "."%char) then true else has_dot s'
  end.

(** [s.rsplit('.', 1)]: the one-element list [[s]] when [s] has no dot,
    otherwise the part before the last dot and the part after it. *)
Fixpoint rsplit (s : string) : list string :=
  match s with
  | EmptyString => [EmptyString]
  | String c s' =>
      match rsplit s' with
      | [a; b] => [String c a; b]
      | _ => if decide (c = "."%char) then [EmptyString; s'] else [String c s']
      end
  end.

(** ** Time-series headers

    [gcloud.monitoring] resources and metrics are named tuples of a type and
    a dict of labels; [__dict__] exposes the two fields by name. *)

Module Resource.
Record t : Type := Build { type : string; labels : gmap string string }.
End Resource.

Module Metric.
Record t : Type := Build { type : string; labels : gmap string string }.
End Metric.

Record TimeSeries : Type := {
  resource : Resource.t;
  metric : Metric.t
}.

#[global] Instance Resource_eq_dec : EqDecision Resource.t.
Proof. solve_decision. Defined.
#[global] Instance Metric_eq_dec : EqDecision Metric.t.
Proof. solve_decision. Defined.
#[global] Instance TimeSeries_eq_dec : EqDecision TimeSeries.
Proof. solve_decision. Defined.

(** ** Data frames

    Row-major: [values] has one row per entry of [index], each row one cell
    per entry of [columns]. *)

Record DataFrame (L : Type) : Type := {
  columns : list L;
  index : list nat;
  values : list (list cell)
}.
Arguments Build_DataFrame {L} _ _ _.
Arguments columns {L} _.
Arguments index {L} _.
Arguments values {L} _.

#[global] Instance DataFrame_eq_dec `{EqDecision L} : EqDecision (DataFrame L).
Proof. solve_decision. Defined.

(** [pandas.DataFrame()] *)
Definition DataFrame_empty {L} : DataFrame L :=
  {| columns := []; index := []; values := [] |}.

(** The flattening step of [json_normalize] on one header dict
    [{'resource': {'type': .., 'labels': {..}}, 'metric': {..}}]: nested
    keys are joined with a dot, and an empty nested dict yields no key. *)
Definition nested_to_record (h : TimeSeries) : gmap string string :=
  <["resource.type" := Resource.type (resource h)]>
    (<["metric.type" := Metric.type (metric h)]>
       (kmap (String.app "resource.labels.") (Resource.labels (resource h))
        ∪ kmap (String.app "metric.labels.") (Metric.labels (metric h)))).

(** [pandas.io.json.json_normalize(headers)]: one row per record, one column
    per flattened key of any record in sorted order, NaN where a record
    lacks the key. *)
Definition json_normalize (headers : list TimeSeries) : DataFrame string :=
  let records := nested_to_record <$> headers in
  let cols := sorted String.le (elements (⋃ (dom <$> records) : gset string)) in
  {| columns := cols;
     index := seq 0 (length headers);
     values := (λ r : gmap string string, (λ c, r !! c) <$> cols) <$> records |}.

(** [pandas.MultiIndex.from_tuples] for a two-level index.  Every entry has
    to have two levels; the flattened keys all do ([from_tuples_rsplit]). *)
Fixpoint from_tuples (tuples : list (list string)) : result (list label) :=
  match tuples with
  | [] => Ok []
  | [a; b] :: tuples' => ls ← from_tuples tuples'; Ok ((a, b) :: ls)
  | _ :: _ => Raise ValueError
  end.

(** [df.columns = new]: relabels the columns; the lengths have to agree. *)
Definition set_columns {L L'} (new : list L') (df : DataFrame L) : result (DataFrame L') :=
  if decide (length new = length (columns df))
  then Ok {| columns := new; index := index df; values := values df |}
  else Raise ValueError.

(** Positions of the columns whose label satisfies [P], counted from [i]. *)
Fixpoint find_locs {L} (P : L → Prop) `{!∀ c, Decision (P c)}
    (cols : list L) (i : nat) : list nat :=
  match cols with
  | [] => []
  | c :: cols' =>
      if decide (P c) then i :: find_locs P cols' (S i) else find_locs P cols' (S i)
  end.

(** The cells of a row at the given positions. *)
Definition take_cells (locs : list nat) (row : list cell) : list cell :=
  (λ i, mjoin (row !! i)) <$> locs.

(** What [df[key]] gives for a first-level key: a frame, or a series when
    it is left with a single column. *)
Inductive frame_or_series : Type :=
  | Frame (df : DataFrame string)
  | Series (index : list nat) (values : list cell).

(** [df[key]] for a first-level key of a two-level column index: the
    columns of that group, labelled by their second level; [KeyError] when
    the group has no column.  A group whose only column has the empty
    second level collapses to that column, a series. *)
Definition getitem_level0 (key : string) (df : DataFrame label) : result frame_or_series :=
  match find_locs (λ c : label, c.1 = key) (columns df) 0 with
  | [] => Raise KeyError
  | locs =>
      let sub :=
        {| columns := snd <$> filter (λ c : label, c.1 = key) (columns df);
           index := index df;
           values := take_cells locs <$> values df |} in
      if decide (columns sub = [""])
      then Ok (Series (index sub) ((λ row, mjoin (head row)) <$> values sub))
      else Ok (Frame sub)
  end.

(** [x.columns]: a series has no such attribute. *)
Definition get_columns (x : frame_or_series) : result (list string) :=
  match x with
  | Frame df => Ok (columns df)
  | Series _ _ => Raise AttributeError
  end.

(** The positions selected by a list of labels, [KeyError] when one of them
    labels no column. *)
Fixpoint locs_of_labels {L} `{!EqDecision L} (key : list L) (cols : list L)
    : result (list nat) :=
  match key with
  | [] => Ok []
  | c :: key' =>
      match find_locs (λ c', c' = c) cols 0 with
      | [] => Raise KeyError
      | locs => rest ← locs_of_labels key' cols; Ok (locs ++ rest)
      end
  end.

(** [df[key]] for a list of column labels. *)
Definition getitem_list {L} `{!EqDecision L} (key : list L) (df : DataFrame L)
    : result (DataFrame L) :=
  locs ← locs_of_labels key (columns df);
  Ok {| columns := omap (λ i, columns df !! i) locs;
        index := index df;
        values := take_cells locs <$> values df |}.

(** The position of each sort key: [KeyError] for an unknown label,
    [ValueError] ("Cannot sort by duplicate column") for an ambiguous one. *)
Fixpoint key_locs {L} `{!EqDecision L} (by_ : list L) (cols : list L)
    : result (list nat) :=
  match by_ with
  | [] => Ok []
  | c :: by' =>
      match find_locs (λ c', c' = c) cols 0 with
      | [] => Raise KeyError
      | [i] => rest ← key_locs by' cols; Ok (i :: rest)
      | _ => Raise ValueError
      end
  end.

(** Rows compare lexicographically on their cells. *)
Definition row_le : relation (list cell) := lex_le cell_le.

#[global] Instance row_le_dec : RelDecision row_le.
Proof. unfold row_le. apply _. Defined.

(** Indexed rows compare on the cells at the key positions. *)
Definition by_key_le (locs : list nat) (r1 r2 : nat * list cell) : Prop :=
  row_le (take_cells locs r1.2) (take_cells locs r2.2).

#[global] Instance by_key_le_dec locs : RelDecision (by_key_le locs).
Proof. intros r1 r2. unfold by_key_le. apply _. Defined.

(** [df.sort_values(by)] with two or more keys: a stable lexicographic sort
    of the rows on the key columns, ascending, NaN last; every row keeps its
    index entry. *)
Definition sort_values {L} `{!EqDecision L} (by_ : list L) (df : DataFrame L)
    : result (DataFrame L) :=
  locs ← key_locs by_ (columns df);
  let rows :=
    sorted (by_key_le locs) (zip (index df) (values df)) in
  Ok {| columns := columns df; index := rows.*1; values := rows.*2 |}.

(** [df.reset_index(drop=True)] *)
Definition reset_index {L} (df : DataFrame L) : DataFrame L :=
  {| columns := columns df;
     index := seq 0 (length (index df));
     values := values df |}.

(** [df.fillna(value)] *)
Definition fill_row (value : string) (row : list cell) : list cell :=
  (λ c : cell, Some (default value c)) <$> row.

Definition fillna {L} (value : string) (df : DataFrame L) : DataFrame L :=
  {| columns := columns df;
     index := index df;
     values := fill_row value <$> values df |}.

(** ** The label table: the body of [Query.labels_as_dataframe] *)

Section labels_as_dataframe.
(** [gcloud.monitoring._dataframe._sorted_resource_labels] *)
Variable _sorted_resource_labels : list string → list string.

(** Lines 149 to 152: the value of [sorted_columns]. *)
Definition sorted_columns_of (cols : list label) (resource_keys : list string)
    : list label :=
  [("metric", "type"); ("resource", "type")]
  ++ sorted tuple_le (filter (λ col : label, col.1 = "metric.labels") cols)
  ++ ((λ key, ("resource.labels", key)) <$> resource_keys).

(** Lines 138 to 157, on the list [headers] of line 136. *)
Definition labels_table (headers : list TimeSeries) : result (DataFrame label) :=
  if decide (headers = []) then Ok DataFrame_empty
  else
    let df := json_normalize headers in
    (* Add a 2 level column header. *)
    cols ← from_tuples (rsplit <$> columns df);
    df ← set_columns cols df;
    (* Re-order the columns. *)
    sub ← getitem_level0 "resource.labels" df;
    sub_columns ← get_columns sub;
    let resource_keys := _sorted_resource_labels sub_columns in
    let sorted_columns := sorted_columns_of (columns df) resource_keys in
    df ← getitem_list sorted_columns df;
    (* Sort the data, and clean up index values, and NaNs. *)
    df ← sort_values sorted_columns df;
    Ok (fillna "" (reset_index df)).
End labels_as_dataframe.

(** The ordering of [gcloud.monitoring._dataframe]: the well-known resource
    labels first, in their fixed order, then the others sorted. *)
Definition TOP_RESOURCE_LABELS : list string :=
  ["project_id"; "aws_account"; "location"; "region"; "zone"].

Definition gcloud_sorted_resource_labels (labels : list string) : list string :=
  filter (λ l, l ∈ labels) TOP_RESOURCE_LABELS
  ++ sorted String.le (filter (λ l, l ∉ TOP_RESOURCE_LABELS) labels).

(** * The query object: iteration and the result cache

    Python objects live in a store and are named by their location; an
    attribute that holds an object holds its location.  A computation takes
    the store and gives back a result, or an exception, and the store it
    leaves. *)

Module Query.

Abbreviation loc := nat.

(** The value of [_filter.metric_type]: the tuple that [__init__] stores, or
    the single string that [iter] stores in its copy. *)
Inductive metric_types : Type :=
  | Tuple (types : list string)
  | Str (type : string).

(** What [for metric_type in ...] runs over: the entries of a tuple, the
    characters of a string. *)
Fixpoint chars (s : string) : list string :=
  match s with
  | EmptyString => []
  | String c s' => String c EmptyString :: chars s'
  end.

Definition items (mt : metric_types) : list string :=
  match mt with
  | Tuple types => types
  | Str type => chars type
  end.

(** The [metric_type] argument of the constructor: "a string for a single
    metric type, or a list for one or more metrics". *)
Inductive metric_type_arg : Type :=
  | a_string (s : string)
  | a_list (l : list string).

(** Lines 65 to 68: a string becomes a tuple of one entry, anything else
    goes through [tuple]. *)
Definition as_tuple (metric_type : metric_type_arg) : list string :=
  match metric_type with
  | a_string s => [s]
  | a_list l => l
  end.

Section store.
(** The attributes the module never touches: those of the gcloud query
    (client, time interval, alignment, ...) and of its filter (group,
    projects, label filters); and the state of a
    [_query_result.QueryResults] object. *)
Context {QAttrs FAttrs QueryResults : Type}.

Inductive object : Type :=
  | QueryObj (attrs : QAttrs) (_filter : loc) (_results : option loc)
  | FilterObj (metric_type : metric_types) (attrs : FAttrs)
  | ResultsObj (state : QueryResults).

Abbreviation heap := (gmap loc object).

Definition M (A : Type) : Type := heap → result A * heap.

#[global] Instance M_ret : MRet M := λ _ a h, (Ok a, h).
#[global] Instance M_bind : MBind M := λ _ _ f m h,
  match m h with
  | (Ok a, h') => f a h'
  | (Raise e, h') => (Raise e, h')
  end.

Definition lift {A} (r : result A) : M A := λ h, (r, h).

(** Reading [q._filter] and [q._results], [f.metric_type], and the state of
    a results object. *)
Definition get_query (q : loc) : M (QAttrs * loc * option loc) := λ h,
  match h !! q with
  | Some (QueryObj a f r) => (Ok (a, f, r), h)
  | _ => (Raise AttributeError, h)
  end.

Definition get_filter (f : loc) : M (metric_types * FAttrs) := λ h,
  match h !! f with
  | Some (FilterObj mt fa) => (Ok (mt, fa), h)
  | _ => (Raise AttributeError, h)
  end.

Definition get_results (r : loc) : M QueryResults := λ h,
  match h !! r with
  | Some (ResultsObj s) => (Ok s, h)
  | _ => (Raise AttributeError, h)
  end.

(** A new object gets a location no object has. *)
Definition alloc (o : object) : M loc := λ h,
  let l := fresh (dom h) in (Ok l, <[l := o]> h).

Definition store (l : loc) (o : object) : M unit := λ h, (Ok (), <[l := o]> h).

(** [gcloud.monitoring.Query.copy]: a new query object with the attributes
    of this one and a copy of its filter; whatever else the query holds,
    its [_results] among it, is shared with the copy. *)
Definition copy (self : loc) : M loc :=
  '(a, f, r) ← get_query self;
  '(mt, fa) ← get_filter f;
  f' ← alloc (FilterObj mt fa);
  alloc (QueryObj a f' r).

(** [gcloud.monitoring.Query.iter]: the time series the service returns for
    the query as it stands, all pages, or the exception it raises; it reads
    the query and writes nothing. *)
Variable gcloud_iter :
  QAttrs → metric_types → FAttrs → bool → option nat → result (list TimeSeries).

Definition super_iter (q : loc) (headers_only : bool) (page_size : option nat)
    : M (list TimeSeries) :=
  '(a, f, _) ← get_query q;
  '(mt, fa) ← get_filter f;
  lift (gcloud_iter a mt fa headers_only page_size).

(** [q._filter.metric_type = metric_type] *)
Definition set_metric_type (q : loc) (metric_type : string) : M unit :=
  '(_, f, _) ← get_query q;
  '(_, fa) ← get_filter f;
  store f (FilterObj (Str metric_type) fa).

(** The loop of [iter], lines 81 to 85, with the series it yields. *)
Fixpoint iter_loop (single_metric_query : loc) (metric_types : list string)
    (headers_only : bool) (page_size : option nat) : M (list TimeSeries) :=
  match metric_types with
  | [] => mret []
  | metric_type :: rest =>
      set_metric_type single_metric_query metric_type;;
      series ← super_iter single_metric_query headers_only page_size;
      more ← iter_loop single_metric_query rest headers_only page_size;
      mret (series ++ more)
  end.

(** [Query.iter], run to its end. *)
Definition iter (self : loc) (headers_only : bool) (page_size : option nat)
    : M (list TimeSeries) :=
  (* For iteration, create a query with a single metric type. *)
  single_metric_query ← copy self;
  '(_, f, _) ← get_query self;
  '(mt, _) ← get_filter f;
  iter_loop single_metric_query (items mt) headers_only page_size.

(** [_query_result.QueryResults(query, use_short_metric_types)]: the state
    of the object it builds, or the exception it raises, from the query and
    the store it reads. *)
Variable QueryResults_init : loc → bool → heap → result QueryResults.

Definition QueryResults_new (query : loc) (use_short_metric_types : bool) : M loc :=
  λ h, match QueryResults_init query use_short_metric_types h with
       | Ok s => alloc (ResultsObj s) h
       | Raise e => (Raise e, h)
       end.

(** [Query.execute] *)
Definition execute (self : loc) (use_cache use_short_metric_types : bool) : M unit :=
  '(a, f, r) ← get_query self;
  if negb use_cache || bool_decide (r = None) then
    new ← QueryResults_new self use_short_metric_types;
    store self (QueryObj a f (Some new))
  else mret ().

(** [Query.results] *)
Definition results (self : loc) (use_cache use_short_metric_types : bool)
    : M (option loc) :=
  execute self use_cache use_short_metric_types;;
  '(_, _, r) ← get_query self;
  mret r.

(** [gcloud.monitoring._dataframe._sorted_resource_labels] *)
Variable _sorted_resource_labels : list string → list string.

(** [Query.labels_as_dataframe] *)
Definition labels_as_dataframe (self : loc) : M (DataFrame label) :=
  headers ← iter self true None;
  lift (labels_table _sorted_resource_labels headers).

(** [Query.__iter__] *)
Definition __iter__ (self : loc) : M (list TimeSeries) := iter self false None.

(** What the constructor calls: [_utils.make_client], and the constructor
    of [gcloud.monitoring.Query], which checks the time interval, keeps the
    client and makes the filter.  It gives the attributes of the query and
    of its filter, or the exception it raises; the filter holds the metric
    types it is handed. *)
Context {Project Context_ Client Time : Type}.
Variable make_client : option Project → option Context_ → result Client.
Variable gcloud_init :
  Client → list string → option Time → Z → Z → Z → result (QAttrs * FAttrs).

(** [Query.__init__], with the object it initializes: a query that holds
    no results, with a filter of its own. *)
Definition __init__ (metric_type : metric_type_arg) (end_time : option Time)
    (days hours minutes : Z) (project_id : option Project)
    (context : option Context_) : M loc :=
  client ← lift (make_client project_id context);
  let metric_type := as_tuple metric_type in
  '(a, fa) ← lift (gcloud_init client metric_type end_time days hours minutes);
  _filter ← alloc (FilterObj (Tuple metric_type) fa);
  alloc (QueryObj a _filter None).

(** [wp m Q h]: run from the store [h], the computation [m] ends with an
    outcome and a store that satisfy [Q]. *)
Definition wp {A} (m : M A) (Q : result A → heap → Prop) (h : heap) : Prop :=
  Q (m h).1 (m h).2.

(** What the iteration yields for a query with attributes [a], filter
    attributes [fa] and the given metric types: the series of each type in
    turn, asked for with that single type. *)
Fixpoint yields (a : QAttrs) (fa : FAttrs) (headers_only : bool)
    (page_size : option nat) (types : list string) : result (list TimeSeries) :=
  match types with
  | [] => Ok []
  | t :: rest =>
      series ← gcloud_iter a (Str t) fa headers_only page_size;
      more ← yields a fa headers_only page_size rest;
      Ok (series ++ more)
  end.

(** What the loop keeps: the objects of [h0], and a copy whose filter is
    none of them. *)
Definition copy_inv (h0 : heap) (single_metric_query : loc)
    (a : QAttrs) (fa : FAttrs) (h : heap) : Prop :=
  h0 ⊆ h ∧ ∃ f r mt,
    h !! single_metric_query = Some (QueryObj a f r)
    ∧ h !! f = Some (FilterObj mt fa)
    ∧ h0 !! f = None.

End store.
End Query.

Import Query.

(** * Definitions for the statements *)

(** The two-level label of a flattened key, and the key of a label. *)
Definition split_label (k : string) : label :=
  match rsplit k with
  | [a; b] => (a, b)
  | _ => (k, "")
  end.

Definition join_label (c : label) : string := c.1 +:+ "." +:+ c.2.

(** The flattened keys of all records. *)
Definition flat_keys (headers : list TimeSeries) : gset string :=
  ⋃ (dom <$> (nested_to_record <$> headers)).

(** The two-level labels of the normalized frame. *)
Definition split_columns (headers : list TimeSeries) : list label :=
  split_label <$> columns (json_normalize headers).

(** The cells of one record under the given labels, before [fillna]. *)
Definition raw_row (cols : list label) (h : TimeSeries) : list cell :=
  (λ c, nested_to_record h !! join_label c) <$> cols.

Section closed_form_defs.
Variable _sorted_resource_labels : list string → list string.

(** The names handed to [_sorted_resource_labels]:
    [df['resource.labels'].columns]. *)
Definition resource_columns (headers : list TimeSeries) : list string :=
  snd <$> filter (λ c : label, c.1 = "resource.labels") (split_columns headers).

Definition sorted_columns (headers : list TimeSeries) : list label :=
  sorted_columns_of (split_columns headers)
    (_sorted_resource_labels (resource_columns headers)).

(** The label table in closed form. *)
Definition labels_table_nf (headers : list TimeSeries) : result (DataFrame label) :=
  if decide (headers = []) then Ok DataFrame_empty
  else if decide (resource_columns headers = []) then Raise KeyError
  else if decide (resource_columns headers = [""]) then Raise AttributeError
  else if decide (sorted_columns headers ⊆ split_columns headers) then
    if decide (NoDup (sorted_columns headers)) then
      Ok {| columns := sorted_columns headers;
            index := seq 0 (length headers);
            values := fill_row "" <$>
              sorted row_le (raw_row (sorted_columns headers) <$> headers) |}
    else Raise ValueError
  else Raise KeyError.
End closed_form_defs.

Definition metric_label_names (headers : list TimeSeries) : gset string :=
  ⋃ ((λ h, dom (Metric.labels (metric h))) <$> headers).

Definition resource_label_names (headers : list TimeSeries) : gset string :=
  ⋃ ((λ h, dom (Resource.labels (resource h))) <$> headers).

(** A label name without a dot: the only kind that stays in its group when
    the flattened key is split at the last dot. *)
Definition dotless (n : string) : Prop := has_dot n = false.

#[global] Instance dotless_dec n : Decision (dotless n).
Proof. unfold dotless. apply _. Defined.

Definition metric_label_columns (headers : list TimeSeries) : list string :=
  sorted String.le (elements (filter dotless (metric_label_names headers))).

Definition resource_label_columns (headers : list TimeSeries) : list string :=
  sorted String.le (elements (filter dotless (resource_label_names headers))).

(** What a cell stands for: the value the record gives the column's label,
    if it gives one. *)
Definition label_value (h : TimeSeries) (c : label) : option string :=
  if decide (c = ("metric", "type")) then Some (Metric.type (metric h))
  else if decide (c = ("resource", "type")) then Some (Resource.type (resource h))
  else if decide (c.1 = "metric.labels") then Metric.labels (metric h) !! c.2
  else if decide (c.1 = "resource.labels") then Resource.labels (resource h) !! c.2
  else None.

(** The cell as the returned table shows it. *)
Definition shown (c : cell) : string := default "" c.

(** ** Worked inputs *)

Definition header (rtype : string) (rlabels : list (string * string))
    (mtype : string) (mlabels : list (string * string)) : TimeSeries :=
  {| resource := Resource.Build rtype (list_to_map rlabels);
     metric := Metric.Build mtype (list_to_map mlabels) |}.

(** The two records of the example in the specification. *)
Definition record_A : TimeSeries :=
  header "gce_instance" [("zone", "us-central1-a")]
         "cpu/utilization" [("instance_name", "vm1")].

Definition record_B : TimeSeries :=
  header "gce_instance" [("zone", "us-central1-b")] "cpu/utilization" [].

(** A record whose resource has no label at all. *)
Definition record_bare : TimeSeries :=
  header "global" [] "cpu/utilization" [("instance_name", "vm1")].

(** A record with a metric label whose name holds a dot. *)
Definition record_dotted : TimeSeries :=
  header "gce_instance" [("zone", "us-central1-a")]
         "cpu/utilization" [("a.b", "1")].

(** A record with the label names of record A and other values. *)
Definition record_C : TimeSeries :=
  header "gce_instance" [("zone", "us-central1-b")]
         "cpu/utilization" [("instance_name", "vm2")].

(** The column set as the specification words it: the two type columns and
    one column per label name of any record. *)
Definition columns_as_claimed (headers : list TimeSeries) (cols : list label) : Prop :=
  ∀ c, c ∈ cols ↔
    c = ("metric", "type") ∨ c = ("resource", "type")
    ∨ (∃ n, c = ("metric.labels", n) ∧ n ∈ metric_label_names headers)
    ∨ (∃ n, c = ("resource.labels", n) ∧ n ∈ resource_label_names headers).

(** The row order as the specification words it: the rows of the returned
    table ascend lexicographically on the strings they show. *)
Definition rows_as_claimed (df : DataFrame label) : Prop :=
  Sorted (lex_le String.le) ((λ row : list cell, shown <$> row) <$> values df).

(** A store with one query of two metric types that holds results. *)
Definition store_0 : gmap loc (@object unit unit nat) :=
  <[0 := QueryObj () 1 (Some 2)]>
    (<[1 := FilterObj (Tuple ["cpu/utilization"; "cpu/usage_time"]) ()]>
       (<[2 := ResultsObj 7]> ∅)).

(** A store with one query that has no metric type and holds no results. *)
Definition store_1 : gmap loc (@object unit unit nat) :=
  <[0 := QueryObj () 1 None]> (<[1 := FilterObj (Tuple []) ()]> ∅).

(** A client factory that always succeeds, and a query constructor that
    refuses an end time without a duration. *)
Definition client_0 (project_id : option string) (context : option unit)
    : result unit := Ok ().

Definition init_0 (client : unit) (metric_type : list string)
    (end_time : option Z) (days hours minutes : Z) : result (unit * unit) :=
  if decide (is_Some end_time ∧ days = 0%Z ∧ hours = 0%Z ∧ minutes = 0%Z)
  then Raise ValueError else Ok ((), ()).

Definition service_0 (a : unit) (mt : metric_types) (fa : unit)
    (headers_only : bool) (page_size : option nat) : result (list TimeSeries) :=
  match mt with
  | Str "cpu/utilization" => Ok [record_B; record_A]
  | _ => Ok []
  end.

(** * Facts about the orders and the sort *)

Section lex_facts.
Context {A : Type} (R : relation A) `{!RelDecision R, !EqDecision A}.

#[global] Instance lex_le_refl : Reflexive (lex_le R).
Proof. intros l. induction l; simpl; [done|]. by case_decide. Qed.

#[global] Instance lex_le_trans `{!PartialOrder R} : Transitive (lex_le R).
Proof.
  intros l1. induction l1 as [|x l1 IH]; intros [|y l2] [|z l3]; simpl; try done.
  repeat case_decide; subst; try done.
  - apply IH.
  - intros Hxy Hyx. destruct H. by apply (anti_symm R).
  - intros Hxy Hyz. by trans y.
Qed.

#[global] Instance lex_le_antisym `{!PartialOrder R} : AntiSymm (=) (lex_le R).
Proof.
  intros l1. induction l1 as [|x l1 IH]; intros [|y l2]; simpl; try done.
  repeat case_decide; subst; try done.
  - intros ??. f_equal. by apply IH.
  - intros Hxy Hyx. destruct H. by apply (anti_symm R).
Qed.

#[global] Instance lex_le_total `{!Total R} : Total (lex_le R).
Proof.
  intros l1. induction l1 as [|x l1 IH]; intros [|y l2]; simpl; auto.
  repeat case_decide; subst; try done; first [apply IH | apply (total R)].
Qed.
End lex_facts.

Section sorted_facts.
Context {A : Type} (R : relation A) `{!RelDecision R}.

Lemma sorted_cons x l : sorted R (x :: l) = insert_sorted R x (sorted R l).
Proof. done. Qed.

Lemma insert_sorted_perm x l : insert_sorted R x l ≡ₚ x :: l.
Proof.
  induction l as [|y l IH]; simpl; [done|].
  case_decide; [done|]. rewrite IH. apply Permutation_swap.
Qed.

Lemma sorted_perm l : sorted R l ≡ₚ l.
Proof.
  induction l as [|x l IH]; simpl; [done|].
  by rewrite insert_sorted_perm, IH.
Qed.

Lemma sorted_length l : length (sorted R l) = length l.
Proof. apply Permutation_length, sorted_perm. Qed.

Lemma insert_sorted_StronglySorted `{!Transitive R, !Total R} x l :
  StronglySorted R l → StronglySorted R (insert_sorted R x l).
Proof.
  induction 1 as [|y l Hl IH Hy]; simpl.
  { repeat constructor. }
  case_decide as Hxy.
  - constructor; [by constructor|].
    constructor; [done|]. eapply Forall_impl; [exact Hy|].
    intros z ?. by trans y.
  - constructor; [done|].
    rewrite insert_sorted_perm. constructor; [|done].
    by destruct (total R x y).
Qed.

Lemma sorted_StronglySorted `{!Transitive R, !Total R} l :
  StronglySorted R (sorted R l).
Proof.
  induction l; simpl; [constructor|by apply insert_sorted_StronglySorted].
Qed.

Lemma sorted_unique `{!PartialOrder R, !Total R} l1 l2 :
  l1 ≡ₚ l2 → sorted R l1 = sorted R l2.
Proof.
  intros Hp. apply (StronglySorted_unique R);
    [apply sorted_StronglySorted..|].
  by rewrite !sorted_perm.
Qed.

Lemma sorted_id l : StronglySorted R l → sorted R l = l.
Proof.
  induction 1 as [|x l Hl IH Hx]; simpl; [done|].
  rewrite IH. destruct Hx as [|y l' Hxy _]; simpl; [done|].
  by rewrite decide_True.
Qed.
End sorted_facts.

(** Sorting commutes with a map that reflects the order. *)
Lemma sorted_fmap {A B} (f : A → B) (R1 : relation A) (R2 : relation B)
    `{!RelDecision R1, !RelDecision R2} (l : list A) :
  (∀ x y, x ∈ l → y ∈ l → R1 x y ↔ R2 (f x) (f y)) →
  f <$> sorted R1 l = sorted R2 (f <$> l).
Proof.
  induction l as [|x l IH]; intros Hf; [done|].
  rewrite fmap_cons, !sorted_cons.
  rewrite <-IH by (intros; apply Hf; by constructor).
  assert (Hin : ∀ y, y ∈ sorted R1 l → R1 x y ↔ R2 (f x) (f y)).
  { intros y Hy. apply Hf; [by left|]. right. by rewrite <-(sorted_perm R1 l). }
  clear IH Hf. induction (sorted R1 l) as [|y l' IH]; simpl; [done|].
  destruct (decide (R1 x y)) as [Hxy|Hxy].
  - rewrite decide_True; [done|]. apply Hin; [by left|done].
  - rewrite decide_False; [|]. 
    + simpl. f_equal. apply IH. intros; apply Hin; by right.
    + intros ?. apply Hxy, Hin; [by left|done].
Qed.

#[global] Instance cell_le_po : PartialOrder cell_le.
Proof.
  split; [split|].
  - intros [a|]; simpl; done.
  - intros [a|] [b|] [c|]; simpl; try done. apply (transitivity (R := String.le)).
  - intros [a|] [b|]; simpl; try done. intros ??. f_equal. by apply (anti_symm String.le).
Qed.

#[global] Instance cell_le_total : Total cell_le.
Proof. intros [a|] [b|]; simpl; auto. apply (total String.le). Qed.

#[global] Instance row_le_po : PartialOrder row_le.
Proof. unfold row_le. split; [split|]; apply _. Qed.

#[global] Instance row_le_total : Total row_le.
Proof. unfold row_le. apply _. Qed.

#[global] Instance tuple_le_po : PartialOrder tuple_le.
Proof.
  unfold tuple_le. split; [split|].
  - intros p. reflexivity.
  - intros p q r. apply (transitivity (R := lex_le String.le)).
  - intros [a b] [c d] H1 H2.
    pose proof (anti_symm (lex_le String.le) _ _ H1 H2). by simplify_eq/=.
Qed.

#[global] Instance tuple_le_total : Total tuple_le.
Proof. intros p q. unfold tuple_le. apply (total (lex_le String.le)). Qed.

(** * Facts about [rsplit] and the flattened keys *)

Lemma app_String c (s t : string) : String c s +:+ t = String c (s +:+ t).
Proof. done. Qed.

Lemma app_empty_l (t : string) : "" +:+ t = t.
Proof. done. Qed.

Lemma has_dot_app (s t : string) : has_dot (s +:+ t) = has_dot s || has_dot t.
Proof.
  induction s as [|c s IH]; [done|].
  rewrite app_String. simpl. by case_decide.
Qed.

Lemma rsplit_no_dot s : has_dot s = false → rsplit s = [s].
Proof.
  induction s as [|c s IH]; simpl; [done|].
  destruct (decide (c = "."%char)); [done|]. intros Hs. by rewrite (IH Hs).
Qed.

Lemma rsplit_has_dot s :
  has_dot s = true →
  ∃ a b, rsplit s = [a; b] ∧ s = a +:+ "." +:+ b ∧ has_dot b = false.
Proof.
  induction s as [|c s IH]; simpl; [done|].
  destruct (has_dot s) eqn:Hs.
  - intros _. destruct IH as (a & b & -> & -> & Hb); [done|].
    exists (String c a), b. by rewrite app_String.
  - case_decide as Hc; [|done]. intros _. subst c.
    rewrite (rsplit_no_dot s Hs). by exists "", s.
Qed.

Lemma rsplit_inv s a b :
  rsplit s = [a; b] → s = a +:+ "." +:+ b ∧ has_dot b = false.
Proof.
  destruct (has_dot s) eqn:Hs.
  - destruct (rsplit_has_dot s Hs) as (a' & b' & -> & -> & Hb). by intros [= <- <-].
  - by rewrite (rsplit_no_dot s Hs).
Qed.

Lemma rsplit_join a b : has_dot b = false → rsplit (a +:+ "." +:+ b) = [a; b].
Proof.
  intros Hb. set (s := a +:+ "." +:+ b).
  assert (Hs : has_dot s = true).
  { unfold s. rewrite !has_dot_app. simpl. by rewrite orb_true_r. }
  destruct (rsplit_has_dot s Hs) as (a' & b' & -> & Heq & Hb').
  assert (a = a' ∧ b = b') as [-> ->]; [|done].
  clear Hs. unfold s in Heq. clear s. revert a' Heq.
  induction a as [|c a IH]; intros [|c' a'] Heq;
    repeat (rewrite ?app_String, ?app_empty_l in Heq).
  - by simplify_eq/=.
  - injection Heq as _ Heq.
    subst b. rewrite !has_dot_app in Hb. simpl in Hb. by rewrite orb_true_r in Hb.
  - injection Heq as _ Heq.
    subst b'. rewrite !has_dot_app in Hb'. simpl in Hb'. by rewrite orb_true_r in Hb'.
  - injection Heq as -> Heq.
    destruct (IH a') as [-> ->]; [|done].
    by repeat (rewrite ?app_String, ?app_empty_l).
Qed.

Lemma split_label_join k : has_dot k = true → join_label (split_label k) = k.
Proof.
  intros Hk. destruct (rsplit_has_dot k Hk) as (a & b & Hr & -> & Hb).
  unfold split_label. by rewrite Hr.
Qed.

Lemma split_label_snd k : has_dot k = true → has_dot (split_label k).2 = false.
Proof.
  intros Hk. destruct (rsplit_has_dot k Hk) as (a & b & Hr & -> & Hb).
  unfold split_label. by rewrite Hr.
Qed.

Lemma join_label_split c : has_dot c.2 = false → split_label (join_label c) = c.
Proof.
  intros Hc. unfold split_label, join_label. rewrite rsplit_join by done.
  by destruct c.
Qed.

Lemma from_tuples_rsplit (keys : list string) :
  Forall (λ k, has_dot k = true) keys →
  from_tuples (rsplit <$> keys) = Ok (split_label <$> keys).
Proof.
  induction 1 as [|k keys Hk _ IH]; [done|].
  rewrite !fmap_cons. destruct (rsplit_has_dot k Hk) as (a & b & Hr & _).
  simpl. rewrite Hr, IH. simpl. unfold split_label. by rewrite Hr.
Qed.

Section flat_keys.
Implicit Types (h : TimeSeries) (n k : string).

Lemma lookup_resource_type h :
  nested_to_record h !! "resource.type" = Some (Resource.type (resource h)).
Proof. unfold nested_to_record. by rewrite lookup_insert_eq. Qed.

Lemma lookup_metric_type h :
  nested_to_record h !! "metric.type" = Some (Metric.type (metric h)).
Proof.
  unfold nested_to_record. rewrite lookup_insert_ne by done.
  by rewrite lookup_insert_eq.
Qed.

Lemma lookup_resource_label h n :
  nested_to_record h !! ("resource.labels." +:+ n)
  = Resource.labels (resource h) !! n.
Proof.
  unfold nested_to_record. rewrite !lookup_insert_ne by done.
  rewrite lookup_union, lookup_kmap by apply _.
  replace (kmap _ (Metric.labels (metric h)) !! _) with (@None string).
  { by destruct (_ !! n). }
  symmetry. apply lookup_kmap_None; [apply _|]. intros i Hi. done.
Qed.

Lemma lookup_metric_label h n :
  nested_to_record h !! ("metric.labels." +:+ n)
  = Metric.labels (metric h) !! n.
Proof.
  unfold nested_to_record. rewrite !lookup_insert_ne by done.
  rewrite lookup_union, lookup_kmap by apply _.
  replace (kmap _ (Resource.labels (resource h)) !! _) with (@None string).
  { by destruct (_ !! n). }
  symmetry. apply lookup_kmap_None; [apply _|]. intros i Hi. done.
Qed.

Lemma elem_of_dom_nested_to_record h k :
  k ∈ dom (nested_to_record h) ↔
    k = "resource.type" ∨ k = "metric.type"
    ∨ (∃ n, k = "resource.labels." +:+ n ∧ n ∈ dom (Resource.labels (resource h)))
    ∨ (∃ n, k = "metric.labels." +:+ n ∧ n ∈ dom (Metric.labels (metric h))).
Proof.
  unfold nested_to_record. rewrite !dom_insert, dom_union, !dom_kmap by apply _.
  rewrite !elem_of_union, !elem_of_singleton, !elem_of_map. naive_solver.
Qed.

Lemma has_dot_flat_key h k : k ∈ dom (nested_to_record h) → has_dot k = true.
Proof.
  rewrite elem_of_dom_nested_to_record.
  intros [->|[->|[(n & -> & _)|(n & -> & _)]]]; try done;
    by rewrite has_dot_app.
Qed.
End flat_keys.

(** * Facts about the frame operations *)

Section find_locs.
Context {L : Type} (P : L → Prop) `{!∀ c, Decision (P c)}.

Lemma elem_of_find_locs cols j i :
  i ∈ find_locs P cols j ↔ j ≤ i ∧ ∃ c, cols !! (i - j) = Some c ∧ P c.
Proof.
  revert j. induction cols as [|c cols IH]; intros j; simpl.
  { rewrite elem_of_nil. naive_solver. }
  assert (Htl : i ∈ find_locs P cols (S j) ↔
                j < i ∧ ∃ c', (c :: cols) !! (i - j) = Some c' ∧ P c').
  { rewrite IH. split.
    - intros (? & c' & Hc' & ?). split; [lia|]. exists c'.
      by replace (i - j) with (S (i - S j)) by lia.
    - intros (? & c' & Hc' & ?). split; [lia|]. exists c'.
      by replace (i - j) with (S (i - S j)) in Hc' by lia. }
  case_decide as Hc.
  - rewrite elem_of_cons, Htl. split.
    + intros [->|[? ?]]; [|split; [lia|done]].
      split; [done|]. exists c. by rewrite Nat.sub_diag.
    + intros [Hle Hex]. destruct (decide (i = j)) as [->|]; [by left|].
      right. split; [lia|done].
  - rewrite Htl. split.
    + intros [? ?]. split; [lia|done].
    + intros [Hle (c' & Hc' & HP)]. split; [|by exists c'].
      destruct (decide (i = j)) as [->|]; [|lia].
      rewrite Nat.sub_diag in Hc'. by simplify_eq/=.
Qed.

Lemma find_locs_length cols j :
  length (find_locs P cols j) = length (filter P cols).
Proof.
  revert j. induction cols as [|c cols IH]; intros j; simpl; [done|].
  rewrite filter_cons. case_decide; simpl; by rewrite IH.
Qed.

Lemma find_locs_nil cols j :
  find_locs P cols j = [] ↔ Forall (λ c, ¬ P c) cols.
Proof.
  revert j. induction cols as [|c cols IH]; intros j; simpl.
  { split; [constructor|done]. }
  rewrite Forall_cons. case_decide; [naive_solver|].
  rewrite IH. naive_solver.
Qed.
End find_locs.

Section locs.
Context {L : Type} `{!EqDecision L}.
Implicit Types (c : L) (cols key : list L).

Lemma find_locs_eq_nil c cols j :
  find_locs (λ c', c' = c) cols j = [] ↔ c ∉ cols.
Proof.
  rewrite find_locs_nil, Forall_forall. split.
  - intros H Hc. by apply (H c).
  - intros H c' Hc' ->. done.
Qed.

Lemma find_locs_NoDup c cols i j :
  NoDup cols → cols !! i = Some c →
  find_locs (λ c', c' = c) cols j = [j + i].
Proof.
  intros Hnd. revert i j.
  induction Hnd as [|c' cols Hc' Hnd IH]; intros i j Hi; [done|].
  simpl. destruct i as [|i]; simplify_eq/=.
  - rewrite decide_True by done. rewrite Nat.add_0_r. f_equal.
    by apply find_locs_eq_nil.
  - rewrite decide_False.
    + rewrite (IH i (S j) Hi). f_equal. lia.
    + intros ->. apply Hc'. by eapply list_elem_of_lookup_2.
Qed.

Lemma locs_of_labels_Ok key cols :
  NoDup cols → key ⊆ cols →
  ∃ locs, locs_of_labels key cols = Ok locs
          ∧ Forall2 (λ c i, cols !! i = Some c) key locs.
Proof.
  intros Hnd. induction key as [|c key IH]; intros Hsub.
  { exists []. by split. }
  destruct IH as (locs & Hlocs & Hall); [set_solver|].
  assert (c ∈ cols) as [i Hi]%list_elem_of_lookup_1 by set_solver.
  exists (i :: locs). simpl.
  rewrite (find_locs_NoDup c cols i 0 Hnd Hi), Hlocs. simpl.
  split; [done|by constructor].
Qed.

Lemma locs_of_labels_KeyError key cols :
  ¬ key ⊆ cols → locs_of_labels key cols = Raise KeyError.
Proof.
  induction key as [|c key IH]; intros Hsub.
  { destruct Hsub. set_solver. }
  simpl. destruct (find_locs _ cols 0) as [|i locs] eqn:Hlocs; [done|].
  rewrite IH; [done|]. intros Hkey. apply Hsub.
  assert (c ∈ cols); [|set_solver].
  apply dec_stable. intros Hc%(find_locs_eq_nil c cols 0). congruence.
Qed.

Lemma omap_lookup_locs key cols locs :
  Forall2 (λ c i, cols !! i = Some c) key locs →
  omap (λ i, cols !! i) locs = key.
Proof.
  induction 1 as [|c i key locs Hi _ IH]; [done|].
  csimpl. rewrite Hi. csimpl. by f_equal.
Qed.

Lemma key_locs_prefix by_ cols j :
  NoDup cols →
  (∀ k c, by_ !! k = Some c → cols !! (j + k) = Some c) →
  key_locs by_ cols = Ok (seq j (length by_)).
Proof.
  intros Hnd. revert j. induction by_ as [|c by_ IH]; intros j Hby; [done|].
  simpl. rewrite (find_locs_NoDup c cols j 0 Hnd).
  - rewrite (IH (S j)); [done|]. intros k c' Hk.
    replace (S j + k) with (j + S k) by lia. by apply Hby.
  - rewrite <-(Nat.add_0_r j). by apply Hby.
Qed.

Lemma key_locs_self cols :
  NoDup cols → key_locs cols cols = Ok (seq 0 (length cols)).
Proof. intros Hnd. by apply key_locs_prefix. Qed.

Lemma key_locs_subset by_ cols :
  by_ ⊆ cols → is_Ok (key_locs by_ cols) ∨ key_locs by_ cols = Raise ValueError.
Proof.
  induction by_ as [|c by_ IH]; intros Hsub.
  { left. by exists []. }
  simpl. destruct (find_locs _ cols 0) as [|i [|i' locs]] eqn:Hlocs.
  - apply find_locs_eq_nil in Hlocs. set_solver.
  - destruct IH as [[locs' ->]| ->]; [set_solver| |by right].
    left. by eexists.
  - by right.
Qed.

Lemma key_locs_Ok_unique by_ cols locs c i1 i2 :
  key_locs by_ cols = Ok locs → c ∈ by_ →
  cols !! i1 = Some c → cols !! i2 = Some c → i1 = i2.
Proof.
  revert locs. induction by_ as [|c' by_ IH]; intros locs Hk Hc Hi1 Hi2.
  { by apply elem_of_nil in Hc. }
  simpl in Hk.
  destruct (find_locs _ cols 0) as [|i [|i' locs']] eqn:Hlocs; try done.
  destruct (key_locs by_ cols) as [rest|] eqn:Hrest; [|done].
  apply elem_of_cons in Hc as [->|Hc]; [|by eapply IH].
  assert (Hin : ∀ i0, cols !! i0 = Some c' → i0 = i).
  { intros i0 Hi0.
    assert (i0 ∈ find_locs (λ c'0 : L, c'0 = c') cols 0) as Hi0'.
    { apply elem_of_find_locs. split; [lia|]. exists c'.
      by rewrite Nat.sub_0_r. }
    rewrite Hlocs in Hi0'. by apply list_elem_of_singleton in Hi0'. }
  by rewrite (Hin i1), (Hin i2).
Qed.

Lemma key_locs_self_dup cols :
  ¬ NoDup cols → key_locs cols cols = Raise ValueError.
Proof.
  intros Hnd. destruct (key_locs_subset cols cols) as [[locs Hlocs]|]; [done| |done].
  destruct Hnd. apply NoDup_alt. intros i1 i2 c Hi1 Hi2.
  eapply key_locs_Ok_unique; [done| |done..].
  by eapply list_elem_of_lookup_2.
Qed.
End locs.

Lemma take_cells_seq (row : list cell) : take_cells (seq 0 (length row)) row = row.
Proof.
  unfold take_cells. apply list_eq. intros i.
  rewrite list_lookup_fmap. destruct (row !! i) as [c|] eqn:Hi.
  - rewrite lookup_seq_lt by (by eapply lookup_lt_Some).
    rewrite Nat.add_0_l. csimpl. by rewrite Hi.
  - rewrite lookup_seq_ge by (by apply lookup_ge_None). done.
Qed.

Lemma take_cells_length locs row : length (take_cells locs row) = length locs.
Proof. unfold take_cells. by rewrite length_fmap. Qed.

(** * The normalized frame *)

Section json_normalize_facts.
Implicit Types (h : TimeSeries) (headers : list TimeSeries).

Lemma elem_of_flat_keys headers k :
  k ∈ flat_keys headers ↔ ∃ h, h ∈ headers ∧ k ∈ dom (nested_to_record h).
Proof.
  unfold flat_keys. rewrite elem_of_union_list. split.
  - intros (X & HX & Hk). apply list_elem_of_fmap in HX as (r & -> & Hr).
    apply list_elem_of_fmap in Hr as (h & -> & Hh). eauto.
  - intros (h & Hh & Hk). exists (dom (nested_to_record h)). split; [|done].
    by do 2 apply list_elem_of_fmap_2.
Qed.

Lemma flat_keys_perm headers headers' :
  headers ≡ₚ headers' → flat_keys headers = flat_keys headers'.
Proof.
  intros Hp. apply set_eq. intros k. rewrite !elem_of_flat_keys.
  by setoid_rewrite Hp.
Qed.

Lemma json_columns headers :
  columns (json_normalize headers) = sorted String.le (elements (flat_keys headers)).
Proof. done. Qed.

Lemma json_values headers :
  values (json_normalize headers)
  = (λ h, (λ k, nested_to_record h !! k) <$> columns (json_normalize headers))
    <$> headers.
Proof. unfold json_normalize. simpl. by rewrite <-list_fmap_compose. Qed.

Lemma json_index headers : index (json_normalize headers) = seq 0 (length headers).
Proof. done. Qed.

Lemma elem_of_json_columns headers k :
  k ∈ columns (json_normalize headers)
  ↔ ∃ h, h ∈ headers ∧ k ∈ dom (nested_to_record h).
Proof.
  by rewrite json_columns, sorted_perm, elem_of_elements, elem_of_flat_keys.
Qed.

Lemma NoDup_json_columns headers : NoDup (columns (json_normalize headers)).
Proof. rewrite json_columns, sorted_perm. apply NoDup_elements. Qed.

Lemma json_columns_sorted headers :
  StronglySorted String.le (columns (json_normalize headers)).
Proof. rewrite json_columns. apply sorted_StronglySorted; apply _. Qed.

Lemma json_columns_has_dot headers :
  Forall (λ k, has_dot k = true) (columns (json_normalize headers)).
Proof.
  apply Forall_forall. intros k (h & _ & Hk)%elem_of_json_columns.
  by eapply has_dot_flat_key.
Qed.

Lemma json_columns_perm headers headers' :
  headers ≡ₚ headers' →
  columns (json_normalize headers) = columns (json_normalize headers').
Proof. intros Hp. by rewrite !json_columns, (flat_keys_perm _ _ Hp). Qed.

Lemma NoDup_split_columns headers : NoDup (split_columns headers).
Proof.
  apply NoDup_fmap_2_strong; [|apply NoDup_json_columns].
  pose proof (json_columns_has_dot headers) as Hdot.
  rewrite Forall_forall in Hdot.
  intros k1 k2 Hk1 Hk2 Heq.
  rewrite <-(split_label_join k1), <-(split_label_join k2) by auto.
  by rewrite Heq.
Qed.

Lemma split_columns_lookup headers i c :
  split_columns headers !! i = Some c →
  columns (json_normalize headers) !! i = Some (join_label c)
  ∧ has_dot c.2 = false.
Proof.
  unfold split_columns. rewrite list_lookup_fmap.
  destruct (columns (json_normalize headers) !! i) as [k|] eqn:Hk; [|done].
  intros [= <-].
  assert (has_dot k = true) as Hdot.
  { pose proof (json_columns_has_dot headers) as Hdot.
    rewrite Forall_forall in Hdot. apply Hdot. by eapply list_elem_of_lookup_2. }
  by rewrite split_label_join, split_label_snd.
Qed.

Lemma elem_of_split_columns headers c :
  c ∈ split_columns headers ↔
    has_dot c.2 = false
    ∧ ∃ h, h ∈ headers ∧ join_label c ∈ dom (nested_to_record h).
Proof.
  split.
  - intros [i Hi]%list_elem_of_lookup_1.
    apply split_columns_lookup in Hi as [Hi ?]. split; [done|].
    apply elem_of_json_columns. by eapply list_elem_of_lookup_2.
  - intros [Hc Hk%elem_of_json_columns]. unfold split_columns.
    rewrite <-(join_label_split c Hc). by apply list_elem_of_fmap_2.
Qed.
End json_normalize_facts.

(** * The label table in closed form *)

Lemma take_cells_raw_row headers h (key : list label) locs :
  Forall2 (λ c i, split_columns headers !! i = Some c) key locs →
  take_cells locs ((λ k, nested_to_record h !! k) <$> columns (json_normalize headers))
  = raw_row key h.
Proof.
  induction 1 as [|c i key locs Hi _ IH]; [done|].
  unfold take_cells, raw_row in *. rewrite !fmap_cons, IH. f_equal.
  apply split_columns_lookup in Hi as [Hi _].
  by rewrite list_lookup_fmap, Hi.
Qed.

Lemma bind_Ok {A B} (a : A) (f : A → result B) : (Ok a ≫= f) = f a.
Proof. done. Qed.

Lemma bind_Raise {A B} (e : exn) (f : A → result B) : (Raise e ≫= f) = Raise e.
Proof. done. Qed.

Lemma bind_assoc_result {A B C} (m : result A) (f : A → result B) (g : B → result C) :
  (m ≫= f) ≫= g = m ≫= (λ a, f a ≫= g).
Proof. by destruct m. Qed.

Lemma set_columns_Ok {L L'} (new : list L') (df : DataFrame L) :
  length new = length (columns df) →
  set_columns new df = Ok {| columns := new; index := index df; values := values df |}.
Proof. intros Hlen. unfold set_columns. by rewrite decide_True. Qed.

Lemma getitem_level0_KeyError key (df : DataFrame label) :
  filter (λ c : label, c.1 = key) (columns df) = [] →
  getitem_level0 key df = Raise KeyError.
Proof.
  intros Hnil. unfold getitem_level0.
  replace (find_locs (λ c : label, c.1 = key) (columns df) 0) with (@nil nat); [done|].
  symmetry. apply length_zero_iff_nil. by rewrite find_locs_length, Hnil.
Qed.

Lemma getitem_level0_Series key (df : DataFrame label) :
  snd <$> filter (λ c : label, c.1 = key) (columns df) = [""] →
  getitem_level0 key df ≫= get_columns = Raise AttributeError.
Proof.
  intros Hcols. unfold getitem_level0.
  destruct (find_locs (λ c : label, c.1 = key) (columns df) 0) as [|i locs] eqn:Hlocs.
  - apply (f_equal length) in Hlocs. rewrite find_locs_length in Hlocs.
    apply (f_equal length) in Hcols. rewrite length_fmap in Hcols. simpl in *. lia.
  - cbn [columns]. by rewrite decide_True.
Qed.

Lemma getitem_level0_Ok key (df : DataFrame label) :
  filter (λ c : label, c.1 = key) (columns df) ≠ [] →
  snd <$> filter (λ c : label, c.1 = key) (columns df) ≠ [""] →
  getitem_level0 key df ≫= get_columns
  = Ok (snd <$> filter (λ c : label, c.1 = key) (columns df)).
Proof.
  intros Hne Hcols. unfold getitem_level0.
  destruct (find_locs (λ c : label, c.1 = key) (columns df) 0) as [|i locs] eqn:Hlocs.
  - destruct Hne. apply length_zero_iff_nil.
    by rewrite <-(find_locs_length _ _ 0), Hlocs.
  - cbn [columns]. by rewrite decide_False.
Qed.

Lemma getitem_list_KeyError {L} `{!EqDecision L} (key : list L) (df : DataFrame L) :
  ¬ key ⊆ columns df → getitem_list key df = Raise KeyError.
Proof. intros Hsub. unfold getitem_list. by rewrite locs_of_labels_KeyError. Qed.

Lemma getitem_list_Ok {L} `{!EqDecision L} (key : list L) (df : DataFrame L) :
  NoDup (columns df) → key ⊆ columns df →
  ∃ locs, Forall2 (λ c i, columns df !! i = Some c) key locs
    ∧ getitem_list key df
      = Ok {| columns := key; index := index df;
              values := take_cells locs <$> values df |}.
Proof.
  intros Hnd Hsub. unfold getitem_list.
  destruct (locs_of_labels_Ok _ _ Hnd Hsub) as (locs & -> & Hlocs).
  exists locs. split; [done|]. by rewrite bind_Ok, (omap_lookup_locs _ _ _ Hlocs).
Qed.

Lemma sort_values_dup {L} `{!EqDecision L} (df : DataFrame L) :
  ¬ NoDup (columns df) → sort_values (columns df) df = Raise ValueError.
Proof. intros Hnd. unfold sort_values. by rewrite key_locs_self_dup. Qed.

(** Sorting on every column, in column order, sorts the rows themselves. *)
Lemma sort_values_all {L} `{!EqDecision L} (df : DataFrame L) :
  NoDup (columns df) →
  Forall (λ row, length row = length (columns df)) (values df) →
  length (index df) = length (values df) →
  ∃ idx, length idx = length (values df)
    ∧ sort_values (columns df) df
      = Ok {| columns := columns df; index := idx;
              values := sorted row_le (values df) |}.
Proof.
  intros Hnd Hrows Hlen. unfold sort_values.
  rewrite (key_locs_self _ Hnd), bind_Ok. eexists. split; [|f_equal; f_equal].
  - by rewrite length_fmap, sorted_length, length_zip_with, Hlen, Nat.min_id.
  - rewrite (sorted_fmap snd (by_key_le _) row_le).
    + by rewrite snd_zip by lia.
    + rewrite Forall_forall in Hrows.
      intros [i1 r1] [i2 r2] Hr1%elem_of_zip_r Hr2%elem_of_zip_r.
      unfold by_key_le. simpl.
      assert (Hid : ∀ r, r ∈ values df →
                take_cells (seq 0 (length (columns df))) r = r).
      { intros r Hr. rewrite <-(Hrows r Hr). apply take_cells_seq. }
      by rewrite !Hid.
Qed.

Section closed_form.
Variable _sorted_resource_labels : list string → list string.
Implicit Types (h : TimeSeries) (headers : list TimeSeries).

Lemma labels_table_closed_form headers :
  labels_table _sorted_resource_labels headers = labels_table_nf _sorted_resource_labels headers.
Proof.
  unfold labels_table, labels_table_nf.
  case_decide as Hne; [done|].
  rewrite (from_tuples_rsplit _ (json_columns_has_dot headers)), bind_Ok.
  fold (split_columns headers).
  rewrite set_columns_Ok, bind_Ok by (unfold split_columns; by rewrite length_fmap).
  set (df1 := {| columns := split_columns headers |}).
  destruct (decide (resource_columns headers = [])) as [Hrs|Hrs].
  { rewrite getitem_level0_KeyError; [done|]. by apply fmap_nil_inv in Hrs. }
  rewrite <-(bind_assoc_result (getitem_level0 "resource.labels" df1)).
  destruct (decide (resource_columns headers = [""])) as [Hser|Hser].
  { by rewrite getitem_level0_Series. }
  rewrite getitem_level0_Ok; [|intros Hnil; apply Hrs; unfold resource_columns;
                               simpl in Hnil; by rewrite Hnil|done].
  rewrite bind_Ok. change (columns df1) with (split_columns headers).
  fold (resource_columns headers). fold (sorted_columns _sorted_resource_labels headers).
  destruct (decide (sorted_columns _sorted_resource_labels headers ⊆ split_columns headers)) as [Hsub|Hsub];
    [|by rewrite getitem_list_KeyError].
  destruct (getitem_list_Ok (sorted_columns _sorted_resource_labels headers) df1) as (locs & Hlocs & ->);
    [apply NoDup_split_columns|done|].
  rewrite bind_Ok. set (df2 := {| columns := sorted_columns _sorted_resource_labels headers |}).
  destruct (decide (NoDup (sorted_columns _sorted_resource_labels headers))) as [Hnd|Hnd];
    [|by rewrite (sort_values_dup df2)].
  assert (Hvals : values df2 = raw_row (sorted_columns _sorted_resource_labels headers) <$> headers).
  { change (values df2) with (take_cells locs <$> values (json_normalize headers)).
    rewrite json_values, <-list_fmap_compose. apply list_fmap_ext.
    intros _ h _. by apply take_cells_raw_row. }
  destruct (sort_values_all df2) as (idx & Hidx & Hsort); [done|..].
  { rewrite Hvals. apply Forall_fmap, Forall_true. intros h. simpl.
    unfold raw_row. by rewrite length_fmap. }
  { rewrite Hvals. change (index df2) with (index (json_normalize headers)).
    by rewrite json_index, length_seq, !length_fmap. }
  change (sorted_columns _sorted_resource_labels headers) with (columns df2) at 1.
  rewrite Hsort, bind_Ok. unfold fillna, reset_index.
  cbn [columns index values]. by rewrite Hidx, Hvals, length_fmap.
Qed.
End closed_form.

(** * Which labels become columns *)

Section columns_facts.
Implicit Types (h : TimeSeries) (headers : list TimeSeries) (n : string).

Lemma elem_of_metric_label_names headers n :
  n ∈ metric_label_names headers
  ↔ ∃ h, h ∈ headers ∧ n ∈ dom (Metric.labels (metric h)).
Proof.
  unfold metric_label_names. rewrite elem_of_union_list. split.
  - intros (X & (h & -> & Hh)%list_elem_of_fmap & Hn). eauto.
  - intros (h & Hh & Hn). eexists. split; [|done].
    by apply (list_elem_of_fmap_2 (λ h, dom (Metric.labels (metric h)))).
Qed.

Lemma elem_of_resource_label_names headers n :
  n ∈ resource_label_names headers
  ↔ ∃ h, h ∈ headers ∧ n ∈ dom (Resource.labels (resource h)).
Proof.
  unfold resource_label_names. rewrite elem_of_union_list. split.
  - intros (X & (h & -> & Hh)%list_elem_of_fmap & Hn). eauto.
  - intros (h & Hh & Hn). eexists. split; [|done].
    by apply (list_elem_of_fmap_2 (λ h, dom (Resource.labels (resource h)))).
Qed.

Lemma metric_type_column headers :
  ("metric", "type") ∈ split_columns headers ↔ headers ≠ [].
Proof.
  rewrite elem_of_split_columns. split.
  - intros (_ & h & Hh & _) ->. by apply elem_of_nil in Hh.
  - intros Hne. split; [done|]. destruct headers as [|h hs]; [done|].
    exists h. split; [by left|]. apply elem_of_dom. rewrite lookup_metric_type. eauto.
Qed.

Lemma resource_type_column headers :
  ("resource", "type") ∈ split_columns headers ↔ headers ≠ [].
Proof.
  rewrite elem_of_split_columns. split.
  - intros (_ & h & Hh & _) ->. by apply elem_of_nil in Hh.
  - intros Hne. split; [done|]. destruct headers as [|h hs]; [done|].
    exists h. split; [by left|]. apply elem_of_dom. rewrite lookup_resource_type. eauto.
Qed.

Lemma metric_label_column headers n :
  ("metric.labels", n) ∈ split_columns headers
  ↔ dotless n ∧ n ∈ metric_label_names headers.
Proof.
  rewrite elem_of_split_columns, elem_of_metric_label_names.
  change (join_label ("metric.labels", n)) with ("metric.labels." +:+ n).
  unfold dotless. simpl. split; intros [Hn (h & Hh & Hk)]; (split; [done|]);
    exists h; (split; [done|]); apply elem_of_dom; apply elem_of_dom in Hk;
    by rewrite lookup_metric_label in *.
Qed.

Lemma resource_label_column headers n :
  ("resource.labels", n) ∈ split_columns headers
  ↔ dotless n ∧ n ∈ resource_label_names headers.
Proof.
  rewrite elem_of_split_columns, elem_of_resource_label_names.
  change (join_label ("resource.labels", n)) with ("resource.labels." +:+ n).
  unfold dotless. simpl. split; intros [Hn (h & Hh & Hk)]; (split; [done|]);
    exists h; (split; [done|]); apply elem_of_dom; apply elem_of_dom in Hk;
    by rewrite lookup_resource_label in *.
Qed.
End columns_facts.

(** * The order of the columns *)

Lemma StronglySorted_fmap_strong {A B} (f : A → B) (R1 : relation A)
    (R2 : relation B) (l : list A) :
  (∀ x y, x ∈ l → y ∈ l → R1 x y → R2 (f x) (f y)) →
  StronglySorted R1 l → StronglySorted R2 (f <$> l).
Proof.
  intros Hf Hl. induction Hl as [|x l Hl IH Hx]; csimpl; [constructor|].
  constructor.
  - apply IH. intros; apply Hf; by try right.
  - apply Forall_fmap, Forall_forall. intros y Hy. simpl.
    rewrite Forall_forall in Hx. apply Hf; [by left|by right|by apply Hx].
Qed.

Lemma StronglySorted_filter {A} (R : relation A) (P : A → Prop)
    `{!∀ x, Decision (P x)} (l : list A) :
  StronglySorted R l → StronglySorted R (filter P l).
Proof.
  induction 1 as [|x l Hl IH Hx]; [constructor|].
  rewrite filter_cons. case_decide; [|done].
  constructor; [done|]. rewrite Forall_forall in *.
  intros y [_ Hy]%list_elem_of_filter. by apply Hx.
Qed.

Lemma String_compare_app_l (p a b : string) :
  String.compare (p +:+ a) (p +:+ b) = String.compare a b.
Proof.
  induction p as [|c p IH]; [done|].
  rewrite !app_String. simpl. unfold Ascii.compare.
  by rewrite N.compare_refl.
Qed.

Lemma String_le_app_l (p a b : string) :
  String.le (p +:+ a) (p +:+ b) ↔ String.le a b.
Proof. unfold String.le, String.leb. by rewrite String_compare_app_l. Qed.

Lemma tuple_le_same_group (g a b : string) :
  tuple_le (g, a) (g, b) ↔ String.le a b.
Proof.
  unfold tuple_le. simpl. rewrite decide_True by done.
  case_decide as Hab; [|done]. subst. split; [|done]. intros _. reflexivity.
Qed.

Section column_order.
Implicit Types (h : TimeSeries) (headers : list TimeSeries) (n : string).

Lemma split_columns_sorted headers :
  StronglySorted (λ c1 c2 : label, String.le (join_label c1) (join_label c2))
    (split_columns headers).
Proof.
  unfold split_columns.
  apply (StronglySorted_fmap_strong _ String.le); [|apply json_columns_sorted].
  pose proof (json_columns_has_dot headers) as Hdot.
  rewrite Forall_forall in Hdot.
  intros k1 k2 Hk1 Hk2 Hle. by rewrite !split_label_join by auto.
Qed.

Lemma elem_of_resource_columns headers n :
  n ∈ resource_columns headers
  ↔ dotless n ∧ n ∈ resource_label_names headers.
Proof.
  rewrite <-resource_label_column. unfold resource_columns.
  rewrite list_elem_of_fmap. split.
  - intros ([g f] & -> & [Hg Hc]%list_elem_of_filter). simpl in *. by subst.
  - intros Hc. exists ("resource.labels", n). split; [done|].
    by apply list_elem_of_filter.
Qed.

Lemma NoDup_resource_columns headers : NoDup (resource_columns headers).
Proof.
  unfold resource_columns. apply NoDup_fmap_2_strong.
  - intros [g1 f1] [g2 f2] [Hg1 _]%list_elem_of_filter [Hg2 _]%list_elem_of_filter.
    simpl in *. by intros; subst.
  - apply NoDup_filter, NoDup_split_columns.
Qed.

Lemma resource_columns_sorted headers :
  StronglySorted String.le (resource_columns headers).
Proof.
  unfold resource_columns.
  eapply StronglySorted_fmap_strong;
    [|apply StronglySorted_filter, split_columns_sorted].
  intros [g1 f1] [g2 f2] [Hg1 _]%list_elem_of_filter [Hg2 _]%list_elem_of_filter.
  simpl in *. subst. unfold join_label. simpl.
  by rewrite String_le_app_l.
Qed.

(** [df['resource.labels'].columns]: the dot-free resource label names,
    sorted. *)
Lemma resource_columns_eq headers :
  resource_columns headers = resource_label_columns headers.
Proof.
  apply (StronglySorted_unique String.le).
  - apply resource_columns_sorted.
  - apply sorted_StronglySorted; apply _.
  - unfold resource_label_columns. rewrite sorted_perm.
    apply NoDup_Permutation; [apply NoDup_resource_columns|apply NoDup_elements|].
    intros n. by rewrite elem_of_resource_columns, elem_of_elements, elem_of_filter.
Qed.

Lemma metric_columns_eq headers :
  sorted tuple_le (filter (λ col : label, col.1 = "metric.labels") (split_columns headers))
  = (λ n, ("metric.labels", n)) <$> metric_label_columns headers.
Proof.
  apply (StronglySorted_unique tuple_le).
  - apply sorted_StronglySorted; apply _.
  - apply (StronglySorted_fmap_strong _ String.le).
    + intros n1 n2 _ _ Hle. by apply tuple_le_same_group.
    + apply sorted_StronglySorted; apply _.
  - rewrite sorted_perm. unfold metric_label_columns.
    apply NoDup_Permutation.
    + apply NoDup_filter, NoDup_split_columns.
    + apply NoDup_fmap_2; [by intros ?? [= ->]|].
      rewrite sorted_perm. apply NoDup_elements.
    + intros [g f]. rewrite list_elem_of_filter, list_elem_of_fmap. simpl. split.
      * intros [-> Hc]. exists f. split; [done|].
        rewrite sorted_perm, elem_of_elements, elem_of_filter.
        by apply metric_label_column.
      * intros (n & [= -> ->] & Hn). split; [done|].
        rewrite sorted_perm, elem_of_elements, elem_of_filter in Hn.
        by apply metric_label_column.
Qed.
End column_order.

(** * The table, column by column and row by row *)

Section table.
Variable _sorted_resource_labels : list string → list string.
Implicit Types (h : TimeSeries) (headers : list TimeSeries) (n : string).

Lemma sorted_columns_eq headers :
  sorted_columns _sorted_resource_labels headers
  = [("metric", "type"); ("resource", "type")]
    ++ ((λ n, ("metric.labels", n)) <$> metric_label_columns headers)
    ++ ((λ n, ("resource.labels", n)) <$>
          _sorted_resource_labels (resource_label_columns headers)).
Proof.
  unfold sorted_columns, sorted_columns_of.
  by rewrite metric_columns_eq, resource_columns_eq.
Qed.

Lemma sorted_columns_cases headers c :
  c ∈ sorted_columns _sorted_resource_labels headers →
  c = ("metric", "type") ∨ c = ("resource", "type")
  ∨ c.1 = "metric.labels" ∨ c.1 = "resource.labels".
Proof.
  rewrite sorted_columns_eq, !elem_of_app, !list_elem_of_fmap.
  rewrite elem_of_cons, list_elem_of_singleton.
  intros [[->| ->]|[(n & -> & _)|(n & -> & _)]]; auto.
Qed.

Lemma raw_row_label_value headers h :
  raw_row (sorted_columns _sorted_resource_labels headers) h
  = label_value h <$> sorted_columns _sorted_resource_labels headers.
Proof.
  unfold raw_row. apply list_fmap_ext. intros i [g f] Hc%list_elem_of_lookup_2.
  unfold label_value.
  destruct (sorted_columns_cases _ _ Hc) as [[= -> ->]|[[= -> ->]|[Hg|Hg]]].
  - by rewrite decide_True, lookup_metric_type.
  - by rewrite decide_False, decide_True, lookup_resource_type.
  - simpl in Hg. subst g.
    rewrite !decide_False, decide_True by done. apply lookup_metric_label.
  - simpl in Hg. subst g.
    rewrite !decide_False, decide_True by done. apply lookup_resource_label.
Qed.

(** Every way the call returns a table, and the table it returns. *)
Lemma labels_table_Ok headers df :
  headers ≠ [] →
  labels_table _sorted_resource_labels headers = Ok df →
  resource_label_columns headers ≠ []
  ∧ sorted_columns _sorted_resource_labels headers ⊆ split_columns headers
  ∧ NoDup (sorted_columns _sorted_resource_labels headers)
  ∧ df = {| columns := sorted_columns _sorted_resource_labels headers;
            index := seq 0 (length headers);
            values := fill_row "" <$>
              sorted row_le
                ((λ h, label_value h <$> sorted_columns _sorted_resource_labels headers)
                 <$> headers) |}.
Proof.
  intros Hne. rewrite labels_table_closed_form. unfold labels_table_nf.
  rewrite decide_False by done. rewrite resource_columns_eq.
  repeat case_decide; try done. intros [= <-].
  repeat split; try done. do 3 f_equal.
  apply list_fmap_ext. intros _ h _. apply raw_row_label_value.
Qed.

(** With a reordering for [_sorted_resource_labels], a non-empty input with
    some dot-free resource label name, and more of them than the empty name
    alone, does return a table. *)
Lemma labels_table_returns headers :
  (∀ l, NoDup l → _sorted_resource_labels l ≡ₚ l) →
  headers ≠ [] →
  resource_label_columns headers ≠ [] →
  resource_label_columns headers ≠ [""] →
  is_Ok (labels_table _sorted_resource_labels headers).
Proof.
  intros Hperm Hne Hres Hser. rewrite labels_table_closed_form. unfold labels_table_nf.
  rewrite decide_False by done. rewrite resource_columns_eq.
  rewrite !decide_False by done.
  assert (Hnd : NoDup (resource_label_columns headers)).
  { unfold resource_label_columns. rewrite sorted_perm. apply NoDup_elements. }
  assert (Hm : ∀ n, n ∈ metric_label_columns headers →
                ("metric.labels", n) ∈ split_columns headers).
  { intros n. unfold metric_label_columns.
    rewrite sorted_perm, elem_of_elements, elem_of_filter.
    intros [??]. by apply metric_label_column. }
  assert (Hr : ∀ n, n ∈ _sorted_resource_labels (resource_label_columns headers) →
                ("resource.labels", n) ∈ split_columns headers).
  { intros n. rewrite (Hperm _ Hnd). unfold resource_label_columns.
    rewrite sorted_perm, elem_of_elements, elem_of_filter.
    intros [??]. by apply resource_label_column. }
  rewrite decide_True.
  2:{ intros c. rewrite sorted_columns_eq, !elem_of_app, !list_elem_of_fmap.
      rewrite elem_of_cons, list_elem_of_singleton.
      intros [[->| ->]|[(n & -> & Hn)|(n & -> & Hn)]]; auto.
      - by apply metric_type_column.
      - by apply resource_type_column. }
  rewrite decide_True; [by eexists|].
  rewrite sorted_columns_eq. apply NoDup_app. split_and!.
  - compute_done.
  - intros c Hc. rewrite elem_of_app, !list_elem_of_fmap.
    apply elem_of_cons in Hc as [->|Hc%list_elem_of_singleton]; [|subst c];
      by intros [(n & [=] & _)|(n & [=] & _)].
  - apply NoDup_app. split_and!.
    + apply NoDup_fmap_2; [by intros ?? [= ->]|].
      unfold metric_label_columns. rewrite sorted_perm. apply NoDup_elements.
    + intros c (n & -> & _)%list_elem_of_fmap (n' & [=] & _)%list_elem_of_fmap.
    + apply NoDup_fmap_2; [by intros ?? [= ->]|]. by rewrite (Hperm _ Hnd).
Qed.

Lemma labels_table_KeyError headers :
  headers ≠ [] → resource_label_columns headers = [] →
  labels_table _sorted_resource_labels headers = Raise KeyError.
Proof.
  intros Hne Hnil. rewrite labels_table_closed_form. unfold labels_table_nf.
  rewrite decide_False by done. by rewrite resource_columns_eq, decide_True.
Qed.

Lemma labels_table_AttributeError headers :
  headers ≠ [] → resource_label_columns headers = [""] →
  labels_table _sorted_resource_labels headers = Raise AttributeError.
Proof.
  intros Hne Hser. rewrite labels_table_closed_form. unfold labels_table_nf.
  rewrite decide_False by done. rewrite resource_columns_eq, Hser.
  by rewrite decide_False, decide_True.
Qed.
End table.

(** * The ordering of gcloud is a reordering *)

Lemma gcloud_sorted_resource_labels_perm (l : list string) :
  NoDup l → gcloud_sorted_resource_labels l ≡ₚ l.
Proof.
  intros Hnd. unfold gcloud_sorted_resource_labels. rewrite sorted_perm.
  trans (filter (λ n, n ∈ TOP_RESOURCE_LABELS) l
         ++ filter (λ n, n ∉ TOP_RESOURCE_LABELS) l).
  - apply Permutation_app; [|done].
    apply NoDup_Permutation.
    + apply NoDup_filter. unfold TOP_RESOURCE_LABELS. compute_done.
    + by apply NoDup_filter.
    + intros n. rewrite !list_elem_of_filter. tauto.
  - clear Hnd. induction l as [|x l IH]; [done|].
    rewrite !filter_cons. destruct (decide (x ∈ TOP_RESOURCE_LABELS)).
    + rewrite decide_False by tauto. simpl. by constructor.
    + rewrite decide_True by done. rewrite <-Permutation_middle. by constructor.
Qed.

(** * The claims about the label table *)

(** C4: on an empty list of header records the call raises nothing and
    returns the empty frame: no column, no row, no index entry. *)
Theorem labels_table_empty_input (_sorted_resource_labels : list string → list string) :
  labels_table _sorted_resource_labels []
  = Ok {| columns := []; index := []; values := [] |}.
Proof. done. Qed.

(** C2: the columns of a returned table are, in this order, (metric, type),
    (resource, type), the (metric.labels, name) columns with their names in
    ascending lexicographic order and without repetition, and the
    (resource.labels, name) columns in the order [_sorted_resource_labels]
    gives to the resource label names of the frame. *)
Theorem labels_table_column_order
    (_sorted_resource_labels : list string → list string)
    (headers : list TimeSeries) (df : DataFrame label) :
  headers ≠ [] →
  labels_table _sorted_resource_labels headers = Ok df →
  columns df
  = [("metric", "type"); ("resource", "type")]
    ++ ((λ n, ("metric.labels", n)) <$> metric_label_columns headers)
    ++ ((λ n, ("resource.labels", n)) <$>
          _sorted_resource_labels (resource_label_columns headers))
  ∧ StronglySorted String.le (metric_label_columns headers)
  ∧ NoDup (metric_label_columns headers)
  ∧ (∀ n, n ∈ metric_label_columns headers
          ↔ n ∈ metric_label_names headers ∧ dotless n)
  ∧ (∀ n, n ∈ resource_label_columns headers
          ↔ n ∈ resource_label_names headers ∧ dotless n).
Proof.
  intros Hne Hdf.
  destruct (labels_table_Ok _ _ _ Hne Hdf) as (_ & _ & _ & ->).
  cbn [columns]. split; [apply sorted_columns_eq|].
  unfold metric_label_columns, resource_label_columns.
  split; [apply sorted_StronglySorted; apply _|].
  split; [rewrite sorted_perm; apply NoDup_elements|].
  split; intros n; rewrite sorted_perm, elem_of_elements, elem_of_filter; tauto.
Qed.

Lemma labels_table_column_order_witness :
  columns {| columns := [("metric", "type"); ("resource", "type");
                         ("metric.labels", "instance_name");
                         ("resource.labels", "zone")];
             index := [0; 1];
             values := [[Some "cpu/utilization"; Some "gce_instance";
                         Some "vm1"; Some "us-central1-a"];
                        [Some "cpu/utilization"; Some "gce_instance";
                         Some ""; Some "us-central1-b"]] |}
  = [("metric", "type"); ("resource", "type")]
    ++ ((λ n, ("metric.labels", n)) <$> metric_label_columns [record_B; record_A])
    ++ ((λ n, ("resource.labels", n)) <$>
          gcloud_sorted_resource_labels (resource_label_columns [record_B; record_A])).
Proof.
  eapply (labels_table_column_order gcloud_sorted_resource_labels [record_B; record_A]).
  - done.
  - vm_compute. reflexivity.
Defined.



(** C1, at the failing input: one record with the metric label a.b.  The
    call returns a table with the two type columns and the zone column
    only: the label a.b, a metric label of the record, has no column, and
    its value is in no cell; the column set is not the one of the claim. *)
Theorem labels_table_dotted_name :
  labels_table gcloud_sorted_resource_labels [record_dotted]
  = Ok {| columns := [("metric", "type"); ("resource", "type");
                      ("resource.labels", "zone")];
          index := [0];
          values := [[Some "cpu/utilization"; Some "gce_instance";
                      Some "us-central1-a"]] |}
  ∧ Metric.labels (metric record_dotted) !! "a.b" = Some "1"
  ∧ ¬ columns_as_claimed [record_dotted]
        [("metric", "type"); ("resource", "type"); ("resource.labels", "zone")].
Proof.
  split; [vm_compute; reflexivity|]. split; [done|].
  intros Hclaim. destruct (Hclaim ("metric.labels", "a.b")) as [_ Hin].
  assert (("metric.labels", "a.b") ∈
            [("metric", "type"); ("resource", "type"); ("resource.labels", "zone")])
    as Habs; [|set_solver].
  apply Hin. right; right; left. exists "a.b". split; [done|].
  apply elem_of_metric_label_names. exists record_dotted. split; [by left|].
  compute_done.
Qed.

(** C3: the call does not depend on the order of the header records: two
    lists with the same records in another order give the same outcome, the
    same table when one is returned (columns, rows, row order and index) and
    the same exception otherwise. *)
Theorem labels_table_permutation
    (_sorted_resource_labels : list string → list string)
    (headers headers' : list TimeSeries) :
  headers ≡ₚ headers' →
  labels_table _sorted_resource_labels headers
  = labels_table _sorted_resource_labels headers'.
Proof.
  intros Hp. rewrite !labels_table_closed_form. unfold labels_table_nf.
  assert (Hsplit : split_columns headers = split_columns headers').
  { unfold split_columns. by rewrite (json_columns_perm _ _ Hp). }
  assert (Hsc : sorted_columns _sorted_resource_labels headers
                = sorted_columns _sorted_resource_labels headers').
  { unfold sorted_columns, resource_columns. by rewrite Hsplit. }
  destruct (decide (headers = [])) as [->|Hne].
  { apply Permutation_nil in Hp. by subst. }
  rewrite (decide_False (P := headers' = [])).
  2:{ intros ->. by apply Permutation_nil_r in Hp. }
  unfold resource_columns. rewrite <-Hsplit, <-Hsc.
  repeat case_decide; try done. do 2 f_equal.
  - f_equal. by apply Permutation_length.
  - f_equal. apply (sorted_unique row_le). by apply fmap_Permutation.
Qed.

Lemma labels_table_permutation_witness :
  labels_table gcloud_sorted_resource_labels [record_A; record_B]
  = labels_table gcloud_sorted_resource_labels [record_B; record_A].
Proof.
  apply (labels_table_permutation gcloud_sorted_resource_labels
           [record_A; record_B] [record_B; record_A]).
  apply Permutation_swap.
Defined.

(** C5: no cell of a returned table is NaN, and the rows are, up to their
    order, the records rendered column by column: the value the record gives
    the column's label, and the empty string where it gives none; so a label
    that only other records carry shows as the empty string. *)
Theorem labels_table_cells
    (_sorted_resource_labels : list string → list string)
    (headers : list TimeSeries) (df : DataFrame label) :
  headers ≠ [] →
  labels_table _sorted_resource_labels headers = Ok df →
  Forall (Forall (λ c : cell, c ≠ None)) (values df)
  ∧ values df
    ≡ₚ (λ h, (λ c, Some (default "" (label_value h c))) <$> columns df) <$> headers
  ∧ (∀ h n, n ∉ dom (Metric.labels (metric h)) →
       default "" (label_value h ("metric.labels", n)) = "")
  ∧ (∀ h n, n ∉ dom (Resource.labels (resource h)) →
       default "" (label_value h ("resource.labels", n)) = "").
Proof.
  intros Hne Hdf.
  destruct (labels_table_Ok _ _ _ Hne Hdf) as (_ & _ & _ & ->).
  cbn [columns values]. repeat split.
  - apply Forall_fmap, Forall_true. intros row. simpl.
    unfold fill_row. apply Forall_fmap, Forall_true. done.
  - rewrite sorted_perm, <-list_fmap_compose.
    match goal with |- ?l ≡ₚ ?r => replace l with r; [done|] end.
    apply list_fmap_ext. intros _ h _. simpl. unfold fill_row.
    by rewrite <-list_fmap_compose.
  - intros h n Hn%not_elem_of_dom. unfold label_value.
    rewrite !decide_False, decide_True by done. simpl. by rewrite Hn.
  - intros h n Hn%not_elem_of_dom. unfold label_value.
    rewrite !decide_False, decide_True by done. simpl. by rewrite Hn.
Qed.

Lemma labels_table_cells_witness :
  Forall (Forall (λ c : cell, c ≠ None))
    [[Some "cpu/utilization"; Some "gce_instance"; Some "vm1"; Some "us-central1-a"];
     [Some "cpu/utilization"; Some "gce_instance"; Some ""; Some "us-central1-b"]].
Proof.
  apply (labels_table_cells gcloud_sorted_resource_labels [record_B; record_A]
           {| columns := [("metric", "type"); ("resource", "type");
                          ("metric.labels", "instance_name");
                          ("resource.labels", "zone")];
              index := [0; 1];
              values := [[Some "cpu/utilization"; Some "gce_instance";
                          Some "vm1"; Some "us-central1-a"];
                         [Some "cpu/utilization"; Some "gce_instance";
                          Some ""; Some "us-central1-b"]] |}).
  - done.
  - vm_compute. reflexivity.
Defined.

(** C6, at the failing input: one well-formed record whose resource has no
    label makes the call raise [KeyError], whatever the ordering function. *)
Theorem labels_table_bare_record
    (_sorted_resource_labels : list string → list string) :
  labels_table _sorted_resource_labels [record_bare] = Raise KeyError.
Proof. apply labels_table_KeyError; [done|]. by vm_compute. Qed.



(** C7, at the failing input: one record with the metric label a.b.  The
    flattened key of that label, metric.labels.a.b, is split at its last
    dot into the header (metric.labels.a, b), not into (metric.labels, a.b)
    as the keys of dot-free names are; the frame of line 144 carries that
    header under a group of its own, and the returned table has neither
    header: no header stands for the label. *)
Theorem labels_table_dotted_header :
  "metric.labels.a.b" ∈ dom (nested_to_record record_dotted)
  ∧ rsplit "metric.labels.a.b" = ["metric.labels.a"; "b"]
  ∧ rsplit "metric.labels.a.b" ≠ ["metric.labels"; "a.b"]
  ∧ ("metric.labels.a", "b") ∈ split_columns [record_dotted]
  ∧ ∃ df, labels_table gcloud_sorted_resource_labels [record_dotted] = Ok df
      ∧ (("metric.labels", "a.b") ∉ columns df)
      ∧ (("metric.labels.a", "b") ∉ columns df).
Proof.
  split; [vm_compute; set_solver|]. split; [done|]. split; [done|].
  split; [vm_compute; set_solver|].
  eexists. split; [vm_compute; reflexivity|]. cbn [columns].
  split; set_solver.
Qed.

Example rsplit_resource_label : rsplit "resource.labels.zone" = ["resource.labels"; "zone"].
Proof. reflexivity. Qed.

Example rsplit_metric_type : rsplit "metric.type" = ["metric"; "type"].
Proof. reflexivity. Qed.

Example rsplit_dotted_name : rsplit "metric.labels.a.b" = ["metric.labels.a"; "b"].
Proof. reflexivity. Qed.

(** C8, as amended: the index of a returned table is 0, 1, ..., n-1 for n
    records, and its rows are the rows of a frame sorted lexicographically
    over all columns in column order with a missing value after every
    present one, shown with the missing values as empty strings. *)
Theorem labels_table_row_order
    (_sorted_resource_labels : list string → list string)
    (headers : list TimeSeries) (df : DataFrame label) :
  headers ≠ [] →
  labels_table _sorted_resource_labels headers = Ok df →
  index df = seq 0 (length headers)
  ∧ length (values df) = length headers
  ∧ ∃ raw, values df = fill_row "" <$> raw
      ∧ StronglySorted row_le raw
      ∧ raw ≡ₚ (λ h, label_value h <$> columns df) <$> headers.
Proof.
  intros Hne Hdf.
  destruct (labels_table_Ok _ _ _ Hne Hdf) as (_ & _ & _ & ->).
  cbn [columns index values]. split; [done|]. split.
  { by rewrite !length_fmap, sorted_length, length_fmap. }
  eexists. split; [done|]. split.
  - apply sorted_StronglySorted; apply _.
  - apply sorted_perm.
Qed.

Lemma labels_table_row_order_witness :
  index {| columns := [("metric", "type"); ("resource", "type");
                       ("metric.labels", "instance_name");
                       ("resource.labels", "zone")];
           index := [0; 1];
           values := [[Some "cpu/utilization"; Some "gce_instance";
                       Some "vm1"; Some "us-central1-a"];
                      [Some "cpu/utilization"; Some "gce_instance";
                       Some ""; Some "us-central1-b"]] |}
  = seq 0 (length [record_B; record_A]).
Proof.
  eapply (labels_table_row_order gcloud_sorted_resource_labels [record_B; record_A]).
  - done.
  - vm_compute. reflexivity.
Defined.

(** C8, as the specification states it, fails on the specification's own
    example: record A (instance_name vm1) comes before record B (no
    instance_name), though B shows the empty string in that column. *)
Lemma rows_claim_fails_on_missing_label :
  ∃ df, labels_table gcloud_sorted_resource_labels [record_A; record_B] = Ok df
        ∧ ¬ rows_as_claimed df.
Proof.
  eexists. split; [vm_compute; reflexivity|].
  unfold rows_as_claimed. cbn [values]. compute_done.
Qed.

(** * More about the label table *)

Section table_more.
Variable _sorted_resource_labels : list string → list string.
Implicit Types (h : TimeSeries) (headers : list TimeSeries) (n : string).

Lemma elem_of_metric_label_columns headers n :
  n ∈ metric_label_columns headers
  ↔ ∃ h, h ∈ headers ∧ n ∈ dom (Metric.labels (metric h)) ∧ dotless n.
Proof.
  unfold metric_label_columns.
  rewrite sorted_perm, elem_of_elements, elem_of_filter, elem_of_metric_label_names.
  naive_solver.
Qed.

Lemma elem_of_resource_label_columns headers n :
  n ∈ resource_label_columns headers
  ↔ ∃ h, h ∈ headers ∧ n ∈ dom (Resource.labels (resource h)) ∧ dotless n.
Proof.
  unfold resource_label_columns.
  rewrite sorted_perm, elem_of_elements, elem_of_filter, elem_of_resource_label_names.
  naive_solver.
Qed.

Lemma NoDup_resource_label_columns headers : NoDup (resource_label_columns headers).
Proof. unfold resource_label_columns. rewrite sorted_perm. apply NoDup_elements. Qed.

Lemma elem_of_sorted_columns headers c :
  (∀ l, NoDup l → _sorted_resource_labels l ≡ₚ l) →
  c ∈ sorted_columns _sorted_resource_labels headers
  ↔ c = ("metric", "type") ∨ c = ("resource", "type")
    ∨ (∃ n h, c = ("metric.labels", n) ∧ h ∈ headers
              ∧ n ∈ dom (Metric.labels (metric h)) ∧ dotless n)
    ∨ (∃ n h, c = ("resource.labels", n) ∧ h ∈ headers
              ∧ n ∈ dom (Resource.labels (resource h)) ∧ dotless n).
Proof.
  intros Hperm.
  rewrite sorted_columns_eq, !elem_of_app, !list_elem_of_fmap.
  rewrite elem_of_cons, list_elem_of_singleton.
  setoid_rewrite (Hperm _ (NoDup_resource_label_columns headers)).
  setoid_rewrite elem_of_metric_label_columns.
  setoid_rewrite elem_of_resource_label_columns.
  naive_solver.
Qed.

(** The table of a call that returns: its columns, and its rows before
    [fillna], sorted, each the cells of one record. *)
Lemma labels_table_inv headers df :
  labels_table _sorted_resource_labels headers = Ok df →
  (headers = [] ∧ df = DataFrame_empty)
  ∨ (headers ≠ []
     ∧ columns df = sorted_columns _sorted_resource_labels headers
     ∧ NoDup (columns df)
     ∧ index df = seq 0 (length headers)
     ∧ ∃ raw, values df = fill_row "" <$> raw
         ∧ StronglySorted row_le raw
         ∧ raw ≡ₚ (λ h, label_value h <$> columns df) <$> headers).
Proof.
  intros Hdf. destruct (decide (headers = [])) as [->|Hne].
  { left. split; [done|]. by injection Hdf as <-. }
  right. destruct (labels_table_Ok _ _ _ Hne Hdf) as (_ & _ & Hnd & ->).
  cbn [columns index values]. repeat split; try done.
  eexists. split; [done|]. split.
  - apply sorted_StronglySorted; apply _.
  - apply sorted_perm.
Qed.

Lemma label_value_metric_type h :
  label_value h ("metric", "type") = Some (Metric.type (metric h)).
Proof. done. Qed.

Lemma label_value_resource_type h :
  label_value h ("resource", "type") = Some (Resource.type (resource h)).
Proof. done. Qed.

Lemma shown_fill_row (row : list cell) : shown <$> fill_row "" row = shown <$> row.
Proof. unfold fill_row. rewrite <-list_fmap_compose. by apply list_fmap_ext. Qed.

(** On rows without a missing value the row order is the order of the
    strings. *)
Lemma row_le_shown (r1 r2 : list cell) :
  Forall is_Some r1 → Forall is_Some r2 →
  row_le r1 r2 → lex_le String.le (shown <$> r1) (shown <$> r2).
Proof.
  unfold row_le. intros H1. revert r2.
  induction H1 as [|c1 r1 [a ->] _ IH]; intros r2 H2 Hle; [done|].
  destruct H2 as [|c2 r2 [b ->] H2]; [done|]. cbn in *.
  destruct (decide (Some a = Some b)) as [[= ->]|Hne].
  - rewrite decide_True by done. by apply IH.
  - rewrite decide_False by congruence. done.
Qed.

Lemma NoDup_singleton_iff {A} (l : list A) (x : A) :
  NoDup l → l = [x] ↔ x ∈ l ∧ ∀ y, y ∈ l → y = x.
Proof.
  intros Hnd. split.
  - intros ->. split; [by left|]. by intros y ->%list_elem_of_singleton.
  - intros [Hx Hall]. destruct l as [|a [|b l]].
    + by apply elem_of_nil in Hx.
    + f_equal. apply Hall. by left.
    + assert (a = x) as -> by (apply Hall; by left).
      assert (b = x) as -> by (apply Hall; right; by left).
      apply NoDup_cons in Hnd as [Hnin _]. destruct Hnin. by left.
Qed.

(** X1: given an ordering function that reorders the names it is handed,
    a non-empty input has one of three outcomes, by the resource label
    names without a dot that its records carry: with none, [KeyError]; with
    the empty name and no other, [AttributeError] (the selected group is a
    series, which has no columns); with any name other than the empty one, a
    table.  No other exception is raised. *)
Theorem labels_table_outcome headers :
  (∀ l, NoDup l → _sorted_resource_labels l ≡ₚ l) →
  headers ≠ [] →
  (is_Ok (labels_table _sorted_resource_labels headers)
   ↔ ∃ h n, h ∈ headers ∧ n ∈ dom (Resource.labels (resource h))
            ∧ dotless n ∧ n ≠ "")
  ∧ (labels_table _sorted_resource_labels headers = Raise KeyError
     ↔ ¬ ∃ h n, h ∈ headers ∧ n ∈ dom (Resource.labels (resource h)) ∧ dotless n)
  ∧ (labels_table _sorted_resource_labels headers = Raise AttributeError
     ↔ (∃ h, h ∈ headers ∧ "" ∈ dom (Resource.labels (resource h)))
       ∧ ∀ h n, h ∈ headers → n ∈ dom (Resource.labels (resource h)) →
           dotless n → n = "").
Proof.
  intros Hperm Hne.
  pose proof (elem_of_resource_label_columns headers) as Hin.
  pose proof (NoDup_resource_label_columns headers) as Hnd.
  destruct (decide (resource_label_columns headers = [])) as [Hnil|Hnnil].
  { rewrite (labels_table_KeyError _ _ Hne Hnil).
    rewrite Hnil in Hin. setoid_rewrite elem_of_nil in Hin.
    split_and!.
    - split; [by intros [? ?]|].
      intros (h & n & ? & ? & ? & _). destruct (proj2 (Hin n)); eauto.
    - split; [|done]. intros _ (h & n & ?). destruct (proj2 (Hin n)); eauto.
    - split; [done|]. intros [(h & ? & ?) _]. destruct (proj2 (Hin "")).
      exists h. by split_and!. }
  destruct (decide (resource_label_columns headers = [""])) as [Hser|Hnser].
  { rewrite (labels_table_AttributeError _ _ Hne Hser).
    rewrite Hser in Hin. setoid_rewrite list_elem_of_singleton in Hin.
    destruct (proj1 (Hin "") eq_refl) as (h0 & ? & ? & ?).
    split_and!.
    - split; [by intros [? ?]|].
      intros (h & n & ? & ? & ? & Hn). destruct Hn. apply Hin. eauto.
    - split; [done|]. intros Hno. destruct Hno. eauto.
    - split; [|done]. intros _. split; [by eauto|].
      intros h n ? ? ?. apply Hin. eauto. }
  assert (∃ n, n ∈ resource_label_columns headers ∧ n ≠ "") as (n & Hn & Hn0).
  { destruct (decide (Forall (λ y, y = "") (resource_label_columns headers)))
      as [Hall|Hex].
    - rewrite Forall_forall in Hall.
      destruct (resource_label_columns headers) as [|y l] eqn:Heq; [done|].
      destruct Hnser. apply NoDup_singleton_iff; [done|]. split; [|done].
      assert (y = "") as -> by (apply Hall; by left). by left.
    - apply not_Forall_Exists in Hex; [|apply _].
      apply Exists_exists in Hex as (y & ? & ?). eauto. }
  apply Hin in Hn as (h & Hh & Hdom & Hdot).
  destruct (labels_table_returns _ _ Hperm Hne Hnnil Hnser) as [df Hdf].
  rewrite Hdf. split_and!.
  - split; [|by eexists]. intros _. eauto 10.
  - split; [done|]. intros Hno. destruct Hno. eauto.
  - split; [done|]. intros [_ Hall]. destruct Hn0. eauto.
Qed.

(** X2: every table the call returns is well formed: its column headers
    are pairwise distinct, every row has one cell per column, and there is
    one index entry per row. *)
Theorem labels_table_well_formed headers df :
  labels_table _sorted_resource_labels headers = Ok df →
  NoDup (columns df)
  ∧ Forall (λ row, length row = length (columns df)) (values df)
  ∧ length (index df) = length (values df).
Proof.
  intros [[-> ->]|(Hne & _ & Hnd & -> & raw & -> & _ & Hraw)]%labels_table_inv.
  { repeat split; constructor. }
  split; [done|]. split.
  - apply Forall_fmap, Forall_forall. intros row Hrow. simpl.
    rewrite Hraw in Hrow. apply list_elem_of_fmap in Hrow as (h & -> & _).
    unfold fill_row. by rewrite !length_fmap.
  - rewrite length_seq, length_fmap, Hraw. by rewrite length_fmap.
Qed.

(** X3: down the rows of a returned table the metric type ascends, and
    within one metric type the resource type ascends: the two type columns
    lead the sort and are never missing. *)
Theorem labels_table_types_ascending headers df :
  labels_table _sorted_resource_labels headers = Ok df →
  StronglySorted (lex_le String.le)
    ((λ row : list cell, shown <$> take 2 row) <$> values df).
Proof.
  intros [[-> ->]|(Hne & Hcols & _ & _ & raw & -> & Hsorted & Hraw)]%labels_table_inv.
  { constructor. }
  rewrite <-list_fmap_compose.
  apply (StronglySorted_fmap_strong _ row_le); [|done].
  intros r1 r2 Hr1 Hr2 Hle. rewrite Hraw in Hr1, Hr2.
  apply list_elem_of_fmap in Hr1 as (h1 & -> & _).
  apply list_elem_of_fmap in Hr2 as (h2 & -> & _).
  rewrite Hcols, sorted_columns_eq in *. unfold row_le in Hle. cbn in *.
  rewrite !label_value_metric_type, !label_value_resource_type in *.
  rewrite !take_0. cbn in *.
  repeat case_decide; simplify_eq; try done; congruence.
Qed.

(** X4: when no record lacks a label that has a column, the rows of the
    returned table ascend lexicographically on the strings they show, over
    all columns in column order. *)
Theorem labels_table_rows_ascending headers df :
  labels_table _sorted_resource_labels headers = Ok df →
  (∀ h c, h ∈ headers → c ∈ columns df → is_Some (label_value h c)) →
  StronglySorted (lex_le String.le)
    ((λ row : list cell, shown <$> row) <$> values df).
Proof.
  intros [[-> ->]|(Hne & _ & _ & _ & raw & -> & Hsorted & Hraw)]%labels_table_inv Hall.
  { constructor. }
  rewrite <-list_fmap_compose.
  apply (StronglySorted_fmap_strong _ row_le); [|done].
  assert (Hsome : ∀ r, r ∈ raw → Forall is_Some r).
  { intros r Hr. rewrite Hraw in Hr. apply list_elem_of_fmap in Hr as (h & -> & Hh).
    apply Forall_fmap, Forall_forall. intros c Hc. by apply Hall. }
  intros r1 r2 Hr1 Hr2 Hle. simpl. rewrite !shown_fill_row.
  apply row_le_shown; auto.
Qed.

(** X5: more records never take a column away: when the call returns a
    table for a list of records and for a list that holds all of them, the
    columns of the first table are columns of the second. *)
Theorem labels_table_columns_monotone headers headers' df df' :
  (∀ l, NoDup l → _sorted_resource_labels l ≡ₚ l) →
  headers ⊆ headers' →
  labels_table _sorted_resource_labels headers = Ok df →
  labels_table _sorted_resource_labels headers' = Ok df' →
  columns df ⊆ columns df'.
Proof.
  intros Hperm Hsub
    [[-> ->]|(Hne & -> & _)]%labels_table_inv
    [[-> ->]|(Hne' & -> & _)]%labels_table_inv.
  - done.
  - intros c Hc. by apply elem_of_nil in Hc.
  - destruct headers as [|h headers]; [done|]. set_solver.
  - intros c. rewrite !elem_of_sorted_columns by done. naive_solver.
Qed.
(** X6: flattening a label and splitting the key again gives back the
    group and the label name exactly when the name holds no dot: the key
    group.name splits at its last dot, which is the joining dot only then. *)
Theorem flatten_split_round_trip (group n : string) :
  rsplit (group +:+ "." +:+ n) = [group; n] ↔ has_dot n = false.
Proof.
  split; [|apply rsplit_join].
  by intros [_ Hn]%rsplit_inv.
Qed.
End table_more.

Lemma labels_table_outcome_witness :
  is_Ok (labels_table gcloud_sorted_resource_labels [record_A; record_B]).
Proof.
  apply (labels_table_outcome gcloud_sorted_resource_labels [record_A; record_B]
           gcloud_sorted_resource_labels_perm ltac:(done)).
  exists record_A, "zone". split; [by left|]. split; [|done].
  vm_compute. set_solver.
Defined.

(** A single resource label with the empty name: the selected group is a
    series, and reading its columns fails. *)
Example labels_table_empty_label_name :
  labels_table gcloud_sorted_resource_labels
    [header "global" [("", "x")] "cpu/utilization" []]
  = Raise AttributeError.
Proof. vm_compute. reflexivity. Qed.

Lemma labels_table_well_formed_witness :
  NoDup [("metric", "type"); ("resource", "type");
         ("metric.labels", "instance_name"); ("resource.labels", "zone")].
Proof.
  eapply (labels_table_well_formed gcloud_sorted_resource_labels [record_B; record_A]
            {| columns := [("metric", "type"); ("resource", "type");
                           ("metric.labels", "instance_name");
                           ("resource.labels", "zone")];
               index := [0; 1];
               values := [[Some "cpu/utilization"; Some "gce_instance";
                           Some "vm1"; Some "us-central1-a"];
                          [Some "cpu/utilization"; Some "gce_instance";
                           Some ""; Some "us-central1-b"]] |}).
  vm_compute. reflexivity.
Defined.

Lemma labels_table_types_ascending_witness :
  StronglySorted (lex_le String.le)
    [["cpu/usage_time"; "gce_instance"]; ["cpu/utilization"; "aws_ec2_instance"];
     ["cpu/utilization"; "gce_instance"]].
Proof.
  eapply (labels_table_types_ascending gcloud_sorted_resource_labels
            [record_A;
             header "aws_ec2_instance" [("region", "us-east-1")] "cpu/utilization" [];
             header "gce_instance" [("zone", "us-central1-a")] "cpu/usage_time" []]
            {| columns := [("metric", "type"); ("resource", "type");
                           ("metric.labels", "instance_name");
                           ("resource.labels", "region");
                           ("resource.labels", "zone")];
               index := [0; 1; 2];
               values := [[Some "cpu/usage_time"; Some "gce_instance";
                           Some ""; Some ""; Some "us-central1-a"];
                          [Some "cpu/utilization"; Some "aws_ec2_instance";
                           Some ""; Some "us-east-1"; Some ""];
                          [Some "cpu/utilization"; Some "gce_instance";
                           Some "vm1"; Some ""; Some "us-central1-a"]] |}).
  vm_compute. reflexivity.
Defined.

Lemma labels_table_rows_ascending_witness :
  StronglySorted (lex_le String.le)
    [["cpu/utilization"; "gce_instance"; "vm1"; "us-central1-a"];
     ["cpu/utilization"; "gce_instance"; "vm2"; "us-central1-b"]].
Proof.
  eapply (labels_table_rows_ascending gcloud_sorted_resource_labels
            [record_C; record_A]
            {| columns := [("metric", "type"); ("resource", "type");
                           ("metric.labels", "instance_name");
                           ("resource.labels", "zone")];
               index := [0; 1];
               values := [[Some "cpu/utilization"; Some "gce_instance";
                           Some "vm1"; Some "us-central1-a"];
                          [Some "cpu/utilization"; Some "gce_instance";
                           Some "vm2"; Some "us-central1-b"]] |}).
  - vm_compute. reflexivity.
  - cbn [columns]. intros h c Hh Hc.
    repeat (apply elem_of_cons in Hh as [->|Hh]); [| |by apply elem_of_nil in Hh];
      repeat (apply elem_of_cons in Hc as [->|Hc]);
      try (by apply elem_of_nil in Hc); by eexists.
Defined.

Lemma labels_table_columns_monotone_witness :
  [("metric", "type"); ("resource", "type"); ("resource.labels", "zone")]
  ⊆ [("metric", "type"); ("resource", "type");
     ("metric.labels", "instance_name"); ("resource.labels", "zone")].
Proof.
  eapply (labels_table_columns_monotone gcloud_sorted_resource_labels
            [record_B] [record_B; record_A]
            {| columns := [("metric", "type"); ("resource", "type");
                           ("resource.labels", "zone")];
               index := [0];
               values := [[Some "cpu/utilization"; Some "gce_instance";
                           Some "us-central1-b"]] |}
            {| columns := [("metric", "type"); ("resource", "type");
                           ("metric.labels", "instance_name");
                           ("resource.labels", "zone")];
               index := [0; 1];
               values := [[Some "cpu/utilization"; Some "gce_instance";
                           Some "vm1"; Some "us-central1-a"];
                          [Some "cpu/utilization"; Some "gce_instance";
                           Some ""; Some "us-central1-b"]] |}).
  - apply gcloud_sorted_resource_labels_perm.
  - set_solver.
  - vm_compute. reflexivity.
  - vm_compute. reflexivity.
Defined.

(** * Facts about the query object *)

Section query_facts.
Context {QAttrs FAttrs QueryResults : Type}.
Variable gcloud_iter :
  QAttrs → metric_types → FAttrs → bool → option nat → result (list TimeSeries).
Variable QueryResults_init :
  loc → bool → gmap loc (@object QAttrs FAttrs QueryResults) → result QueryResults.
Variable _sorted_resource_labels : list string → list string.

#[local] Abbreviation heap := (gmap loc (@object QAttrs FAttrs QueryResults)).
#[local] Abbreviation M := (@Query.M QAttrs FAttrs QueryResults).
#[local] Abbreviation super_iter := (Query.super_iter gcloud_iter).
#[local] Abbreviation iter_loop := (Query.iter_loop gcloud_iter).
#[local] Abbreviation iter := (Query.iter gcloud_iter).
#[local] Abbreviation yields := (Query.yields gcloud_iter).
#[local] Abbreviation QueryResults_new := (Query.QueryResults_new QueryResults_init).
#[local] Abbreviation execute := (Query.execute QueryResults_init).
#[local] Abbreviation results := (Query.results QueryResults_init).
#[local] Abbreviation labels_as_dataframe :=
  (Query.labels_as_dataframe gcloud_iter _sorted_resource_labels).
Implicit Types (h : heap) (a : QAttrs) (fa : FAttrs).

(** ** Reasoning about computations *)

Lemma wp_bind {A B} (m : M A) (f : A → M B) Q h :
  wp m (λ r h', match r with
                | Ok a => wp (f a) Q h'
                | Raise e => Q (Raise e) h'
                end) h →
  wp (m ≫= f) Q h.
Proof. unfold wp, mbind, M_bind. by destruct (m h) as [[a|e] h']. Qed.

Lemma wp_ret {A} (a : A) (Q : result A → heap → Prop) h : Q (Ok a) h → wp (mret a) Q h.
Proof. done. Qed.

Lemma wp_lift {A} (r : result A) (Q : result A → heap → Prop) h :
  Q r h → wp (lift r) Q h.
Proof. done. Qed.

Lemma wp_mono {A} (m : M A) (Q Q' : result A → heap → Prop) h :
  wp m Q h → (∀ r h', Q r h' → Q' r h') → wp m Q' h.
Proof. unfold wp. auto. Qed.

Lemma wp_get_query q (Q : result (QAttrs * loc * option loc) → heap → Prop) h :
  (∀ a f r, h !! q = Some (QueryObj a f r) → Q (Ok (a, f, r)) h) →
  Q (Raise AttributeError) h →
  wp (get_query q) Q h.
Proof.
  intros HOk HRaise. unfold wp, get_query.
  destruct (h !! q) as [[a f r|mt fa|s]|] eqn:Hq; simpl; auto.
Qed.

Lemma wp_get_filter f (Q : result (metric_types * FAttrs) → heap → Prop) h :
  (∀ mt fa, h !! f = Some (FilterObj mt fa) → Q (Ok (mt, fa)) h) →
  Q (Raise AttributeError) h →
  wp (get_filter f) Q h.
Proof.
  intros HOk HRaise. unfold wp, get_filter.
  destruct (h !! f) as [[a f' r|mt fa|s]|] eqn:Hf; simpl; auto.
Qed.

Lemma wp_get_results l (Q : result QueryResults → heap → Prop) h :
  (∀ s, h !! l = Some (ResultsObj s) → Q (Ok s) h) →
  Q (Raise AttributeError) h →
  wp (get_results l) Q h.
Proof.
  intros HOk HRaise. unfold wp, get_results.
  destruct (h !! l) as [[a f' r|mt fa|s]|] eqn:Hl; simpl; auto.
Qed.

Lemma wp_get_query_Some q a f r (Q : result (QAttrs * loc * option loc) → heap → Prop) h :
  h !! q = Some (QueryObj a f r) → Q (Ok (a, f, r)) h → wp (get_query q) Q h.
Proof. intros Hq HQ. unfold wp, get_query. by rewrite Hq. Qed.

Lemma wp_get_filter_Some f mt fa (Q : result (metric_types * FAttrs) → heap → Prop) h :
  h !! f = Some (FilterObj mt fa) → Q (Ok (mt, fa)) h → wp (get_filter f) Q h.
Proof. intros Hf HQ. unfold wp, get_filter. by rewrite Hf. Qed.

Lemma wp_get_results_Some l s (Q : result QueryResults → heap → Prop) h :
  h !! l = Some (ResultsObj s) → Q (Ok s) h → wp (get_results l) Q h.
Proof. intros Hl HQ. unfold wp, get_results. by rewrite Hl. Qed.

Lemma wp_alloc o (Q : result loc → heap → Prop) h :
  (∀ l, h !! l = None → Q (Ok l) (<[l := o]> h)) → wp (alloc o) Q h.
Proof.
  intros HQ. unfold wp, alloc. simpl. apply HQ.
  apply not_elem_of_dom, is_fresh.
Qed.

Lemma wp_store l o (Q : result unit → heap → Prop) h :
  Q (Ok ()) (<[l := o]> h) → wp (store l o) Q h.
Proof. done. Qed.

(** ** The iteration leaves the objects it finds as they are *)

(** The copy is made of new objects. *)
Lemma wp_copy self h :
  wp (copy self)
     (λ r h', h ⊆ h' ∧
        match r with
        | Ok q => ∃ a fa, copy_inv h q a fa h'
        | Raise _ => True
        end) h.
Proof.
  unfold copy. apply wp_bind, wp_get_query; [|done]. intros a f r Hq.
  apply wp_bind, wp_get_filter; [|done]. intros mt fa Hf.
  apply wp_bind, wp_alloc. intros f' Hf'.
  assert (Hsub : h ⊆ <[f' := FilterObj mt fa]> h) by by apply insert_subseteq.
  apply wp_alloc. intros q Hq'.
  assert (f' ≠ q) by (intros ->; by rewrite lookup_insert_eq in Hq').
  assert (Hsub' : h ⊆ <[q := QueryObj a f' r]> (<[f' := FilterObj mt fa]> h)).
  { etrans; [exact Hsub|]. by apply insert_subseteq. }
  split; [done|]. exists a, fa. split; [done|]. exists f', r, mt.
  rewrite lookup_insert_eq.
  rewrite lookup_insert_ne, lookup_insert_eq by done. done.
Qed.

(** On a query in good order the copy succeeds and carries the attributes
    of the query and of its filter. *)
Lemma wp_copy_Ok self h a f r mt fa :
  h !! self = Some (QueryObj a f r) →
  h !! f = Some (FilterObj mt fa) →
  wp (copy self) (λ res h', ∃ q, res = Ok q ∧ copy_inv h q a fa h') h.
Proof.
  intros Hself Hfilter.
  unfold copy. eapply wp_bind, wp_get_query_Some; [done|].
  eapply wp_bind, wp_get_filter_Some; [done|].
  apply wp_bind, wp_alloc. intros f' Hf'.
  assert (Hsub : h ⊆ <[f' := FilterObj mt fa]> h) by by apply insert_subseteq.
  apply wp_alloc. intros q Hq'.
  assert (f' ≠ q) by (intros ->; by rewrite lookup_insert_eq in Hq').
  exists q. split; [done|]. split.
  - etrans; [exact Hsub|]. by apply insert_subseteq.
  - exists f', r, mt. rewrite lookup_insert_eq.
    rewrite lookup_insert_ne, lookup_insert_eq by done. done.
Qed.

Lemma wp_iter_loop h0 single a fa types headers_only page_size h :
  copy_inv h0 single a fa h →
  wp (iter_loop single types headers_only page_size)
     (λ r h', h0 ⊆ h' ∧ r = yields a fa headers_only page_size types) h.
Proof.
  revert h. induction types as [|t types IH]; intros h Hinv.
  { apply wp_ret. by destruct Hinv. }
  destruct Hinv as (Hsub & f & r & mt & Hq & Hf & Hf0).
  cbn [iter_loop yields]. apply wp_bind. unfold set_metric_type.
  eapply wp_bind, wp_get_query_Some; [done|].
  eapply wp_bind, wp_get_filter_Some; [done|].
  assert (single ≠ f) by (intros ->; congruence).
  apply wp_store.
  assert (Hinv' : copy_inv h0 single a fa (<[f := FilterObj (Str t) fa]> h)).
  { split; [by apply insert_subseteq_r|].
    exists f, r, (Str t). by rewrite lookup_insert_ne, lookup_insert_eq. }
  apply wp_bind. unfold super_iter.
  eapply wp_bind, wp_get_query_Some; [by rewrite lookup_insert_ne|].
  eapply wp_bind, wp_get_filter_Some; [by rewrite lookup_insert_eq|].
  apply wp_lift.
  destruct (gcloud_iter a (Str t) fa headers_only page_size) as [series|e];
    [|by destruct Hinv'].
  apply wp_bind. eapply wp_mono; [by apply IH|].
  intros [more|e] h' [Hh' Hr]; rewrite <-Hr; [by apply wp_ret|done].
Qed.

Lemma wp_iter self headers_only page_size h :
  wp (iter self headers_only page_size) (λ _ h', h ⊆ h') h.
Proof.
  unfold iter. apply wp_bind. eapply wp_mono; [apply wp_copy|].
  intros [q|e] h' [Hsub Hq]; [|done].
  destruct Hq as (a & fa & Hinv).
  apply wp_bind, wp_get_query; [|done]. intros a' f' r' _.
  apply wp_bind, wp_get_filter; [|done]. intros mt' fa' _.
  eapply wp_mono; [by apply wp_iter_loop|]. by intros r h'' [? _].
Qed.

Lemma wp_iter_Ok self headers_only page_size h a f r types fa :
  h !! self = Some (QueryObj a f r) →
  h !! f = Some (FilterObj (Tuple types) fa) →
  wp (iter self headers_only page_size)
     (λ res h', h ⊆ h' ∧ res = yields a fa headers_only page_size types) h.
Proof.
  intros Hself Hfilter.
  unfold iter. apply wp_bind. eapply wp_mono; [by eapply wp_copy_Ok|].
  intros res h' (q & -> & Hinv).
  pose proof Hinv as [Hsub _].
  eapply wp_bind, wp_get_query_Some; [by eapply lookup_weaken|].
  eapply wp_bind, wp_get_filter_Some; [by eapply lookup_weaken|].
  by apply wp_iter_loop.
Qed.

(** Whatever the store holds, the call only adds objects to it. *)
Lemma labels_as_dataframe_grows self h : h ⊆ (labels_as_dataframe self h).2.
Proof.
  pose proof (wp_iter self true None h) as Hwp. unfold wp in Hwp.
  unfold labels_as_dataframe, mbind, M_bind, lift.
  by destruct (iter self true None h) as [[headers|e] h'].
Qed.

(** ** The claims about the query object *)

(** C9: [labels_as_dataframe] leaves the query as it found it: every object
    of the store is unchanged after the call, among them the query with its
    [_filter] and [_results] attributes, the filter with its tuple of metric
    types, and the stored results; the per-type iteration writes to its
    copy only.  The outcome is the label table of the series the iteration
    yields: those of each metric type of the tuple in turn. *)
Theorem labels_as_dataframe_frame self h a f r types fa :
  h !! self = Some (QueryObj a f r) →
  h !! f = Some (FilterObj (Tuple types) fa) →
  (∀ l, r = Some l → ∃ s, h !! l = Some (ResultsObj s)) →
  h ⊆ (labels_as_dataframe self h).2
  ∧ (labels_as_dataframe self h).2 !! self = Some (QueryObj a f r)
  ∧ (labels_as_dataframe self h).2 !! f = Some (FilterObj (Tuple types) fa)
  ∧ (∀ l, r = Some l → (labels_as_dataframe self h).2 !! l = h !! l)
  ∧ (labels_as_dataframe self h).1
    = yields a fa true None types ≫= labels_table _sorted_resource_labels.
Proof.
  intros Hself Hfilter Hres.
  pose proof (labels_as_dataframe_grows self h) as Hsub.
  split; [done|]. split; [by eapply lookup_weaken|].
  split; [by eapply lookup_weaken|]. split.
  - intros l Hl. destruct (Hres l Hl) as [s Hs]. rewrite Hs.
    by eapply lookup_weaken.
  - pose proof (wp_iter_Ok self true None h a f r types fa Hself Hfilter) as Hwp.
    unfold wp in Hwp. unfold labels_as_dataframe, mbind at 1, M_bind, lift.
    destruct (iter self true None h) as [[headers|e] h']; simpl in *;
      destruct Hwp as [_ <-]; done.
Qed.

(** C10: once the query holds results, [results] with [use_cache=True]
    returns that same object and leaves the store as it is, whatever
    [use_short_metric_types] says; with [use_cache=False] it builds a new
    object, stores it in place of the old one and returns it, and later
    cached calls return the new one. *)
Theorem results_cache self h a f r :
  h !! self = Some (QueryObj a f (Some r)) →
  (∀ b, results self true b h = (Ok (Some r), h))
  ∧ (∀ b s, QueryResults_init self b h = Ok s →
       h !! fresh (dom h) = None
       ∧ results self false b h
         = (Ok (Some (fresh (dom h))),
            <[self := QueryObj a f (Some (fresh (dom h)))]>
              (<[fresh (dom h) := ResultsObj s]> h))
       ∧ ∀ b', results self true b' (results self false b h).2
               = (Ok (Some (fresh (dom h))), (results self false b h).2)).
Proof.
  intros Hself.
  assert (Hcached : ∀ h' a' f' r', h' !! self = Some (QueryObj a' f' (Some r')) →
            ∀ b, results self true b h' = (Ok (Some r'), h')).
  { intros h' a' f' r' Hq b.
    unfold results, execute, mbind, M_bind, get_query. rewrite Hq. simpl.
    by rewrite Hq. }
  split; [by eapply Hcached|]. intros b s Hinit.
  assert (Hnew : results self false b h
            = (Ok (Some (fresh (dom h))),
               <[self := QueryObj a f (Some (fresh (dom h)))]>
                 (<[fresh (dom h) := ResultsObj s]> h))).
  { unfold results, execute, mbind, M_bind, get_query. rewrite Hself. simpl.
    unfold QueryResults_new. rewrite Hinit. simpl.
    by rewrite lookup_insert_eq. }
  split; [apply not_elem_of_dom, is_fresh|]. split; [done|].
  intros b'. rewrite Hnew. simpl. eapply Hcached. apply lookup_insert_eq.
Qed.

(** A query that holds no results gets them on the first call, cached or
    not. *)
Lemma results_populates self h a f use_cache b s :
  h !! self = Some (QueryObj a f None) →
  QueryResults_init self b h = Ok s →
  results self use_cache b h
  = (Ok (Some (fresh (dom h))),
     <[self := QueryObj a f (Some (fresh (dom h)))]>
       (<[fresh (dom h) := ResultsObj s]> h)).
Proof.
  intros Hself Hinit.
  unfold results, execute, mbind, M_bind, get_query. rewrite Hself. simpl.
  rewrite orb_true_r. unfold QueryResults_new. rewrite Hinit. simpl.
  by rewrite lookup_insert_eq.
Qed.

(** ** More about the iteration *)

#[local] Abbreviation __iter__ := (Query.__iter__ gcloud_iter).

Lemma yields_singleton a fa headers_only page_size t :
  yields a fa headers_only page_size [t]
  = gcloud_iter a (Str t) fa headers_only page_size.
Proof.
  simpl. destruct (gcloud_iter a (Str t) fa headers_only page_size); simpl;
    [by rewrite app_nil_r|done].
Qed.

Lemma iter_run self headers_only page_size h a f r types fa :
  h !! self = Some (QueryObj a f r) →
  h !! f = Some (FilterObj (Tuple types) fa) →
  h ⊆ (iter self headers_only page_size h).2
  ∧ (iter self headers_only page_size h).1
    = yields a fa headers_only page_size types.
Proof. intros. by eapply (wp_iter_Ok self headers_only page_size h). Qed.

(** X7: run to its end, [iter] asks the service once per metric type of
    the tuple, in the order of the tuple and each time for that single type
    as a string, and yields the series of the first type, then those of the
    second, and so on; every object of the store is afterwards as it was. *)
Theorem iter_yields self headers_only page_size h a f r types fa :
  h !! self = Some (QueryObj a f r) →
  h !! f = Some (FilterObj (Tuple types) fa) →
  (iter self headers_only page_size h).1
  = yields a fa headers_only page_size types
  ∧ ∀ l o, h !! l = Some o → (iter self headers_only page_size h).2 !! l = Some o.
Proof.
  intros Hself Hfilter.
  destruct (iter_run self headers_only page_size h a f r types fa) as [Hsub Hr];
    [done..|].
  split; [done|]. intros l o Hl. by eapply lookup_weaken.
Qed.

(** X8: the query can be iterated again: a second [for ... in query] runs
    over the same metric types and yields what the first one did, since the
    first wrote the single metric types to its own copy. *)
Theorem iter_repeatable self h a f r types fa :
  h !! self = Some (QueryObj a f r) →
  h !! f = Some (FilterObj (Tuple types) fa) →
  (__iter__ self (__iter__ self h).2).1 = (__iter__ self h).1.
Proof.
  intros Hself Hfilter. unfold Query.__iter__.
  destruct (iter_run self false None h a f r types fa) as [Hsub ->]; [done..|].
  eapply (iter_run self false None _ a f r types fa).
  - by eapply lookup_weaken.
  - by eapply lookup_weaken.
Qed.

(** X9: a query without metric types has an empty label table: the
    iteration yields nothing, whatever the service would answer, and the
    call returns the empty frame. *)
Theorem labels_as_dataframe_no_metric_types self h a f r fa :
  h !! self = Some (QueryObj a f r) →
  h !! f = Some (FilterObj (Tuple []) fa) →
  (labels_as_dataframe self h).1 = Ok DataFrame_empty.
Proof.
  intros Hself Hfilter.
  destruct (iter_run self true None h a f r [] fa) as [_ Hr]; [done..|].
  unfold Query.labels_as_dataframe, mbind, M_bind, lift.
  destruct (Query.iter gcloud_iter self true None h) as [[headers|e] h'];
    simpl in *; by simplify_eq.
Qed.

(** ** More about the result cache *)

Lemma execute_cached self b h a f r :
  h !! self = Some (QueryObj a f (Some r)) → execute self true b h = (Ok (), h).
Proof.
  intros Hself. unfold Query.execute, mbind, M_bind, get_query. by rewrite Hself.
Qed.

(** X10: after an [execute] that succeeded, an [execute] that may use the
    cache does nothing: it builds no results object and leaves the store as
    it is, whatever [use_short_metric_types] says. *)
Theorem execute_idempotent self use_cache b h h' :
  execute self use_cache b h = (Ok (), h') →
  ∀ b', execute self true b' h' = (Ok (), h').
Proof.
  intros Hex b'.
  assert (∃ a f r, h' !! self = Some (QueryObj a f (Some r))) as (a & f & r & Hself').
  { revert Hex. unfold Query.execute, mbind, M_bind, get_query.
    destruct (h !! self) as [[a f r|mt fa|s]|] eqn:Hself; simpl; try done.
    destruct (negb use_cache || bool_decide (r = None)) eqn:Hbuild.
    - unfold Query.QueryResults_new.
      destruct (QueryResults_init self b h) as [s|e]; simpl; [|done].
      intros [= <-]. eexists _, _, _. apply lookup_insert_eq.
    - intros [= <-]. destruct r as [r1|]; [eauto|].
      by rewrite orb_true_r in Hbuild. }
  by eapply execute_cached.
Qed.

(** X11: when [results] raises, the store is as it was before the call, so
    a query that held results still holds them; and the exception is the
    one the [QueryResults] constructor raised, or [AttributeError] when
    [self] is no query. *)
Theorem results_failure self use_cache b h e :
  (results self use_cache b h).1 = Raise e →
  (results self use_cache b h).2 = h
  ∧ ((∀ a f r, h !! self ≠ Some (QueryObj a f r)) ∧ e = AttributeError
     ∨ QueryResults_init self b h = Raise e).
Proof.
  unfold Query.results, Query.execute, mbind, M_bind, get_query.
  destruct (h !! self) as [[a f r|mt fa|s]|] eqn:Hself; simpl;
    try (intros [= <-]; split; [done|]; by left).
  destruct (negb use_cache || bool_decide (r = None)).
  - unfold Query.QueryResults_new.
    destruct (QueryResults_init self b h) as [s|e']; simpl.
    + by rewrite lookup_insert_eq.
    + intros [= <-]. split; [done|]. by right.
  - simpl. by rewrite Hself.
Qed.

(** X12: [results] only rebinds [self._results]: the query keeps its other
    attributes and its filter, and every other object of the store, the
    results objects of earlier calls among them, is afterwards as it was. *)
Theorem results_frame self use_cache b h a f r :
  h !! self = Some (QueryObj a f r) →
  (∃ r', (results self use_cache b h).2 !! self = Some (QueryObj a f r'))
  ∧ ∀ l o, l ≠ self → h !! l = Some o →
      (results self use_cache b h).2 !! l = Some o.
Proof.
  intros Hself.
  unfold Query.results, Query.execute, mbind, M_bind, get_query.
  rewrite Hself. simpl.
  destruct (negb use_cache || bool_decide (r = None)).
  - unfold Query.QueryResults_new.
    destruct (QueryResults_init self b h) as [s|e']; simpl; [|by eauto].
    rewrite lookup_insert_eq. simpl. split.
    + eexists. apply lookup_insert_eq.
    + intros l o Hl Ho.
      assert (h !! fresh (dom h) = None) by apply not_elem_of_dom, is_fresh.
      rewrite !lookup_insert_ne; [done|congruence|done].
  - simpl. rewrite Hself. simpl. eauto.
Qed.

(** X13: [results] never returns [None]: when it returns, it returns the
    object that [self._results] names after the call. *)
Theorem results_never_None self use_cache b h r :
  (results self use_cache b h).1 = Ok r →
  ∃ l a f, r = Some l
    ∧ (results self use_cache b h).2 !! self = Some (QueryObj a f (Some l)).
Proof.
  unfold Query.results, Query.execute, mbind, M_bind, get_query.
  destruct (h !! self) as [[a f r0|mt fa|s]|] eqn:Hself; simpl; try done.
  destruct (negb use_cache || bool_decide (r0 = None)) eqn:Hbuild.
  - unfold Query.QueryResults_new.
    destruct (QueryResults_init self b h) as [s|e']; simpl; [|done].
    rewrite lookup_insert_eq. simpl. intros [= <-].
    eexists _, _, _. split; [done|]. apply lookup_insert_eq.
  - simpl. rewrite Hself. simpl. intros [= <-].
    destruct r0 as [l|]; [by eauto|]. by rewrite orb_true_r in Hbuild.
Qed.

(** ** The constructor *)

Section init_facts.
Context {Project Context_ Client Time : Type}.
Variable make_client : option Project → option Context_ → result Client.
Variable gcloud_init :
  Client → list string → option Time → Z → Z → Z → result (QAttrs * FAttrs).

#[local] Abbreviation __init__ := (Query.__init__ make_client gcloud_init).

Lemma init_run metric_type end_time days hours minutes project_id context
    client a fa h :
  make_client project_id context = Ok client →
  gcloud_init client (as_tuple metric_type) end_time days hours minutes
    = Ok (a, fa) →
  ∃ q f, h !! f = None ∧ h !! q = None ∧ f ≠ q
    ∧ __init__ metric_type end_time days hours minutes project_id context h
      = (Ok q, <[q := QueryObj a f None]>
                 (<[f := FilterObj (Tuple (as_tuple metric_type)) fa]> h)).
Proof.
  intros Hclient Hinit.
  exists (fresh (dom (<[fresh (dom h) := FilterObj (Tuple (as_tuple metric_type)) fa]> h))),
         (fresh (dom h)).
  assert (h !! fresh (dom h) = None) as Hf by apply not_elem_of_dom, is_fresh.
  assert (<[fresh (dom h) := FilterObj (Tuple (as_tuple metric_type)) fa]> h
            !! fresh (dom (<[fresh (dom h) :=
                               FilterObj (Tuple (as_tuple metric_type)) fa]> h))
          = None) as Hq by apply not_elem_of_dom, is_fresh.
  assert (fresh (dom h)
          ≠ fresh (dom (<[fresh (dom h) :=
                            FilterObj (Tuple (as_tuple metric_type)) fa]> h))) as Hne.
  { intros Heq. rewrite <-Heq, lookup_insert_eq in Hq. done. }
  split; [done|]. split; [by rewrite lookup_insert_ne in Hq|]. split; [done|].
  unfold Query.__init__, mbind, M_bind, lift. rewrite Hclient, Hinit. done.
Qed.

(** X14: a query made by the constructor iterates over the metric types it
    was given, in their order: the series of each type of a list in turn,
    and for a metric type given as one string the series of that type, asked
    for once; the string is not taken apart. *)
Theorem init_then_iter metric_type end_time days hours minutes project_id context
    client a fa headers_only page_size h :
  make_client project_id context = Ok client →
  gcloud_init client (as_tuple metric_type) end_time days hours minutes
    = Ok (a, fa) →
  ∃ q, (__init__ metric_type end_time days hours minutes project_id context h).1
       = Ok q
    ∧ h !! q = None
    ∧ (iter q headers_only page_size
         (__init__ metric_type end_time days hours minutes project_id context h).2).1
      = yields a fa headers_only page_size (as_tuple metric_type)
    ∧ ∀ s, metric_type = a_string s →
        (iter q headers_only page_size
           (__init__ metric_type end_time days hours minutes project_id context h).2).1
        = gcloud_iter a (Str s) fa headers_only page_size.
Proof.
  intros Hclient Hinit.
  destruct (init_run metric_type end_time days hours minutes project_id context
              client a fa h Hclient Hinit) as (q & f & Hf & Hq & Hne & ->).
  exists q. split; [done|]. split; [done|]. simpl.
  destruct (iter_run q headers_only page_size
              (<[q := QueryObj a f None]>
                 (<[f := FilterObj (Tuple (as_tuple metric_type)) fa]> h))
              a f None (as_tuple metric_type) fa) as [_ Hr].
  - apply lookup_insert_eq.
  - by rewrite lookup_insert_ne, lookup_insert_eq.
  - split; [done|]. intros s ->. rewrite Hr. apply yields_singleton.
Qed.

(** X15: a query made by the constructor holds no results, so its first
    [results] call builds them, with [use_cache=True] as well: it returns a
    new object with the state the [QueryResults] constructor gives. *)
Theorem init_then_results metric_type end_time days hours minutes project_id
    context client a fa h :
  make_client project_id context = Ok client →
  gcloud_init client (as_tuple metric_type) end_time days hours minutes
    = Ok (a, fa) →
  ∃ q h', __init__ metric_type end_time days hours minutes project_id context h
          = (Ok q, h')
    ∧ ∀ use_cache b s, QueryResults_init q b h' = Ok s →
        ∃ l, h' !! l = None
          ∧ (results q use_cache b h').1 = Ok (Some l)
          ∧ (results q use_cache b h').2 !! l = Some (ResultsObj s).
Proof.
  intros Hclient Hinit.
  destruct (init_run metric_type end_time days hours minutes project_id context
              client a fa h Hclient Hinit) as (q & f & Hf & Hq & Hne & ->).
  eexists _, _. split; [done|]. intros use_cache b s Hs.
  set (h' := <[q := QueryObj a f None]>
               (<[f := FilterObj (Tuple (as_tuple metric_type)) fa]> h)) in *.
  assert (h' !! q = Some (QueryObj a f None)) as Hq' by apply lookup_insert_eq.
  assert (h' !! fresh (dom h') = None) as Hl by apply not_elem_of_dom, is_fresh.
  exists (fresh (dom h')). split; [done|].
  rewrite (results_populates q h' a f use_cache b s Hq' Hs). simpl.
  split; [done|].
  rewrite lookup_insert_ne by congruence. apply lookup_insert_eq.
Qed.
End init_facts.

End query_facts.

Lemma labels_as_dataframe_frame_witness :
  store_0 ⊆ (labels_as_dataframe service_0 gcloud_sorted_resource_labels 0 store_0).2.
Proof.
  eapply (labels_as_dataframe_frame service_0 gcloud_sorted_resource_labels
            0 store_0 () 1 (Some 2) ["cpu/utilization"; "cpu/usage_time"] ()).
  - reflexivity.
  - reflexivity.
  - intros l [= <-]. by exists 7.
Defined.

Lemma results_cache_witness :
  results (λ _ _ _, Ok 8) 0 true false store_0 = (Ok (Some 2), store_0).
Proof.
  apply (results_cache (λ _ _ _, Ok 8) 0 store_0 () 1 2).
  reflexivity.
Defined.

(** ** Worked instances of the facts above *)

Lemma iter_yields_witness :
  (iter service_0 0 true None store_0).1
  = yields service_0 () () true None ["cpu/utilization"; "cpu/usage_time"]
  ∧ ∀ l o, store_0 !! l = Some o →
      (iter service_0 0 true None store_0).2 !! l = Some o.
Proof.
  apply (iter_yields service_0 0 true None store_0 () 1 (Some 2)
           ["cpu/utilization"; "cpu/usage_time"] ()).
  - reflexivity.
  - reflexivity.
Defined.

Lemma iter_repeatable_witness :
  (__iter__ service_0 0 (__iter__ service_0 0 store_0).2).1
  = (__iter__ service_0 0 store_0).1.
Proof.
  apply (iter_repeatable service_0 0 store_0 () 1 (Some 2)
           ["cpu/utilization"; "cpu/usage_time"] ()).
  - reflexivity.
  - reflexivity.
Defined.

Lemma labels_as_dataframe_no_metric_types_witness :
  (labels_as_dataframe (λ _ _ _ _ _, Raise ValueError)
     gcloud_sorted_resource_labels 0 store_1).1
  = Ok DataFrame_empty.
Proof.
  apply (labels_as_dataframe_no_metric_types (λ _ _ _ _ _, Raise ValueError)
           gcloud_sorted_resource_labels 0 store_1 () 1 None ()).
  - reflexivity.
  - reflexivity.
Defined.

Lemma execute_idempotent_witness :
  execute (λ _ _ _, Ok 8) 0 true false
    (execute (λ _ _ _, Ok 8) 0 false true store_0).2
  = (Ok (), (execute (λ _ _ _, Ok 8) 0 false true store_0).2).
Proof.
  apply (execute_idempotent (λ _ _ _, Ok 8) 0 false true store_0).
  reflexivity.
Defined.

Lemma results_failure_witness :
  (results (λ _ _ _, Raise ValueError) 0 false true store_0).2 = store_0.
Proof.
  eapply proj1, (results_failure (λ _ _ _, Raise ValueError) 0 false true
                   store_0 ValueError).
  reflexivity.
Defined.

Lemma results_frame_witness :
  (∃ r', (results (λ _ _ _, Ok 8) 0 false true store_0).2 !! 0
         = Some (QueryObj () 1 r'))
  ∧ ∀ l o, l ≠ 0 → store_0 !! l = Some o →
      (results (λ _ _ _, Ok 8) 0 false true store_0).2 !! l = Some o.
Proof.
  apply (results_frame (λ _ _ _, Ok 8) 0 false true store_0 () 1 (Some 2)).
  reflexivity.
Defined.

Lemma init_then_iter_witness :
  ∃ q, (__init__ client_0 init_0 (a_string "cpu/utilization")
          None 0 1 0 None None store_0).1 = Ok q
    ∧ store_0 !! q = None
    ∧ (iter service_0 q true None
         (__init__ client_0 init_0 (a_string "cpu/utilization")
            None 0 1 0 None None store_0).2).1
      = yields service_0 () () true None (as_tuple (a_string "cpu/utilization"))
    ∧ ∀ s, a_string "cpu/utilization" = a_string s →
        (iter service_0 q true None
           (__init__ client_0 init_0 (a_string "cpu/utilization")
              None 0 1 0 None None store_0).2).1
        = service_0 () (Str s) () true None.
Proof.
  apply (init_then_iter service_0 client_0 init_0 (a_string "cpu/utilization")
           None 0 1 0 None None () () () true None store_0).
  - reflexivity.
  - reflexivity.
Defined.

Lemma init_then_results_witness :
  ∃ q h', __init__ client_0 init_0 (a_list ["cpu/utilization"; "cpu/usage_time"])
            None 0 1 0 None None store_0 = (Ok q, h')
    ∧ ∀ use_cache b s, (λ _ _ _, Ok 8) q b h' = Ok s →
        ∃ l, h' !! l = None
          ∧ (results (λ _ _ _, Ok 8) q use_cache b h').1 = Ok (Some l)
          ∧ (results (λ _ _ _, Ok 8) q use_cache b h').2 !! l
            = Some (ResultsObj s).
Proof.
  apply (init_then_results (λ _ _ _, Ok 8) client_0 init_0
           (a_list ["cpu/utilization"; "cpu/usage_time"])
           None 0 1 0 None None () () () store_0).
  - reflexivity.
  - reflexivity.
Defined.

Lemma results_never_None_witness :
  ∃ l a f, Some 2 = Some l
    ∧ (results (λ _ _ _, Ok 8) 0 true false store_0).2 !! 0
      = Some (QueryObj a f (Some l)).
Proof.
  apply (results_never_None (λ _ _ _, Ok 8) 0 true false store_0 (Some 2)).
  reflexivity.
Defined.
